(** * Iris pipelines of the unit-testing exercises: a shallow embedding

    The two notebooks define [SimplePipeline] and its subclass
    [PipelineWithDataEngineering], and the unittest classes
    [TestIrisDataEngineering] and [TestIrisPredictions].  The pipelines are
    written against scikit-learn ([train_test_split], [StandardScaler],
    [LogisticRegression], [accuracy_score]) and numpy's random generator; the
    part of those libraries the pipelines rely on is modelled first, the
    classes of the notebooks follow, then the properties. *)

From Stdlib Require Import String.
From Stdlib Require Import List ZArith QArith Qround Bool Lia Lra.
From Stdlib Require Import Permutation Reals.
Import ListNotations.

Set Implicit Arguments.
Local Open Scope nat_scope.

(** ** Python exceptions as an error monad *)

Inductive exn : Type :=
| AttributeError   (* attribute access on [None] *)
| ValueError       (* raised by the library on ill-shaped input *)
| IndexError.      (* positional index out of range *)

Inductive result (A : Type) : Type :=
| Ok (a : A)
| Raise (e : exn).

Arguments Ok {A} a.
Arguments Raise {A} e.

Definition bind {A B : Type} (c : result A) (k : A -> result B) : result B :=
  match c with
  | Ok a => k a
  | Raise e => Raise e
  end.

Notation "x <- c ;; k" := (bind c (fun x => k))
  (at level 61, c at next level, right associativity).
Notation "' p <- c ;; k" := (bind c (fun x => match x with p => k end))
  (at level 61, p pattern, c at next level, right associativity).

Fixpoint mapM {A B : Type} (f : A -> result B) (l : list A) : result (list B) :=
  match l with
  | [] => Ok []
  | a :: l' => b <- f a ;; bs <- mapM f l' ;; Ok (b :: bs)
  end.

(** ** Arrays, data frames and the data set *)

(** Class labels are the integers 0, 1, 2.  The benchmark of the tests uses
    the float [1.0], which Python compares equal to the integer [1]. *)
Definition label : Type := Z.

(** A two-dimensional array or data frame body: a list of rows. *)
Definition matrix (F : Type) : Type := list (list F).

(** What [datasets.load_iris()] returns. *)
Record Bunch (F : Type) : Type := {
  data : matrix F;
  target : list label;
  bunch_feature_names : list string
}.

(** [pd.DataFrame(dataset.data, columns=...)] followed by
    [frame['target'] = dataset.target]. *)
Record DataFrame (F : Type) : Type := {
  columns : list string;
  values : matrix F;
  frame_target : list label
}.

(** [fn[:-5]]: the string without its last five characters (empty when it
    has fewer). *)
Definition drop_units (fn : string) : string :=
  substring 0 (String.length fn - 5) fn.

(** ** numpy.random *)

(** A generator state, seeding, and [RandomState.permutation n], which
    returns the integers below [n] in some order. *)
Record NumpyRandom : Type := {
  RandomState : Type;
  seed : Z -> RandomState;
  permutation : RandomState -> nat -> list nat;
  permutation_perm : forall g n, Permutation (permutation g n) (seq 0 n)
}.

(** ** sklearn.model_selection *)

Section ModelSelection.
Variable np : NumpyRandom.
(** The state of numpy's global generator, used when no seed is given. *)
Variable np_random : RandomState np.

(** [check_random_state]: an integer seeds a fresh generator, [None] is
    the global one. *)
Definition check_random_state (random_state : option Z) : RandomState np :=
  match random_state with
  | Some s => seed np s
  | None => np_random
  end.

(** [_validate_shuffle_split] for a float [test_size] and no
    [train_size]: [n_test = ceil(test_size * n_samples)] and
    [n_train = n_samples - n_test]; an empty training set is refused. *)
Definition _validate_shuffle_split (n_samples : nat) (test_size : Q)
  : result (nat * nat) :=
  if Qle_bool test_size 0 || Qle_bool 1 test_size then Raise ValueError
  else
    let n_test :=
      Z.to_nat (Qceiling (test_size * inject_Z (Z.of_nat n_samples))) in
    let n_train := n_samples - n_test in
    if n_train =? 0 then Raise ValueError else Ok (n_train, n_test).

(** [_safe_indexing a idx]: the entries of [a] at the positions [idx]. *)
Fixpoint _safe_indexing {A : Type} (a : list A) (idx : list nat)
  : result (list A) :=
  match idx with
  | [] => Ok []
  | i :: idx' =>
      match nth_error a i with
      | Some x => xs <- _safe_indexing a idx' ;; Ok (x :: xs)
      | None => Raise IndexError
      end
  end.

(** [ShuffleSplit._iter_indices], first split: the first [n_test] entries
    of the permutation are the test indices, the next [n_train] the
    training indices.  Returns [(ind_train, ind_test)]. *)
Definition shuffle_split_indices (n_samples n_train n_test : nat)
           (random_state : option Z) : list nat * list nat :=
  let rng := check_random_state random_state in
  let perm := permutation np rng n_samples in
  let ind_test := firstn n_test perm in
  let ind_train := firstn n_train (skipn n_test perm) in
  (ind_train, ind_test).

(** [train_test_split(X, y, test_size=..., random_state=...)]. *)
Definition train_test_split {A B : Type} (X : list A) (y : list B)
           (test_size : Q) (random_state : option Z)
  : result (list A * list A * list B * list B) :=
  if negb (length X =? length y) then Raise ValueError
  else
    ' (n_train, n_test) <- _validate_shuffle_split (length X) test_size ;;
    let '(ind_train, ind_test) :=
      shuffle_split_indices (length X) n_train n_test random_state in
    X_train <- _safe_indexing X ind_train ;;
    X_test <- _safe_indexing X ind_test ;;
    y_train <- _safe_indexing y ind_train ;;
    y_test <- _safe_indexing y ind_test ;;
    Ok (X_train, X_test, y_train, y_test).
End ModelSelection.

(** ** sklearn.metrics *)

(** Number of positions at which the two label lists agree. *)
Definition count_correct (y_true y_pred : list label) : nat :=
  length (filter (fun p => Z.eqb (fst p) (snd p)) (combine y_true y_pred)).

(** The quotient [k / n] of two counts, as a rational. *)
Definition fraction (k n : nat) : Q := Z.of_nat k # Pos.of_nat n.

(** [accuracy_score]: the fraction of positions where prediction and truth
    agree.  Lists of different lengths are refused; so is an empty input,
    which has no fraction. *)
Definition accuracy_score (y_true y_pred : list label) : result Q :=
  if negb (length y_true =? length y_pred) then Raise ValueError
  else
    match length y_true with
    | O => Raise ValueError
    | S _ => Ok (fraction (count_correct y_true y_pred) (length y_true))
    end.

(** ** Estimators *)

(** A classifier in the style of scikit-learn: [fit] yields a fitted
    model, [predict] one label per input row.  Both may raise. *)
Class Classifier (F : Type) : Type := {
  estimator : Type;
  estimator_fit : matrix F -> list label -> result estimator;
  estimator_predict : estimator -> matrix F -> result (list label);
  estimator_predict_length :
    forall m X p, estimator_predict m X = Ok p -> length p = length X
}.

(** [ClassifierMixin.score]: the accuracy of [predict(X)] against [y]. *)
Definition estimator_score {F : Type} `{Classifier F}
           (m : estimator) (X : matrix F) (y : list label) : result Q :=
  p <- estimator_predict m X ;; accuracy_score y p.

(** A transformer in the style of scikit-learn: [fit] computes the
    parameters from data, [transform] applies them.  Both may raise. *)
Class Scaler (F : Type) : Type := {
  scaler_params : Type;
  scaler_fit : matrix F -> result scaler_params;
  scaler_transform : scaler_params -> matrix F -> result (matrix F)
}.

(** ** class SimplePipeline *)

Module SimplePipeline.
Section Methods.
Context {F : Type}.
Variable np : NumpyRandom.
Variable np_random : RandomState np.
(** The value of [datasets.load_iris()]. *)
Variable load_iris : Bunch F.
(** [LogisticRegression(solver='lbfgs', multi_class='auto')], the default
    and only [algorithm] that [train] is called with. *)
Context {LogisticRegression : Classifier F}.

(** The attributes of an instance.  [__init__] binds the split attributes
    and [frame] to [None] and calls [load_dataset] before it returns, which
    rebinds every one of them without reading it, so an instance never
    shows them unset and the record holds the loaded values.  [__init__]
    spells one attribute [Y_test]; [load_dataset] assigns [y_test], so
    [Y_test] stays [None] for ever.  [model] is [None] until [train]. *)
Record t : Type := {
  frame : DataFrame F;
  feature_names : list string;
  X_train : matrix F;
  X_test : matrix F;
  y_train : list label;
  y_test : list label;
  Y_test : option (list label);
  model : option estimator
}.

Definition set_model (self : t) (m : option estimator) : t :=
  {| frame := frame self; feature_names := feature_names self;
     X_train := X_train self; X_test := X_test self;
     y_train := y_train self; y_test := y_test self;
     Y_test := Y_test self; model := m |}.

Definition set_X (self : t) (X_train' X_test' : matrix F) : t :=
  {| frame := frame self; feature_names := feature_names self;
     X_train := X_train'; X_test := X_test';
     y_train := y_train self; y_test := y_test self;
     Y_test := Y_test self; model := model self |}.

(** [load_dataset]: fetch the data, strip the unit from the feature
    names, build the frame and split it with [test_size=0.65] and
    [random_state=42]. *)
Definition load_dataset (self : t) : result t :=
  let dataset := load_iris in
  let feature_names' := map drop_units (bunch_feature_names dataset) in
  let frame' :=
    {| columns := feature_names' ++ ["target"%string];
       values := data dataset;
       frame_target := target dataset |} in
  ' (X_train', X_test', y_train', y_test') <-
      train_test_split np np_random (values frame') (frame_target frame')
                       (65 # 100) (Some 42%Z) ;;
  Ok {| frame := frame'; feature_names := feature_names';
        X_train := X_train'; X_test := X_test';
        y_train := y_train'; y_test := y_test';
        Y_test := Y_test self; model := model self |}.

(** The attributes as [__init__] binds them before it calls
    [load_dataset]; the empty values stand for [None]. *)
Definition unloaded : t :=
  {| frame := {| columns := []; values := []; frame_target := [] |};
     feature_names := [];
     X_train := []; X_test := []; y_train := []; y_test := [];
     Y_test := None; model := None |}.

Definition __init__ : result t := load_dataset unloaded.

Definition train (self : t) : result t :=
  m <- estimator_fit (X_train self) (y_train self) ;;
  Ok (set_model self (Some m)).

Definition predict (self : t) (input_data : matrix F)
  : result (list label) :=
  match model self with
  | Some m => estimator_predict m input_data
  | None => Raise AttributeError
  end.

(** [predict] as the first exercise of the model-quality notebook
    redefines it: label 1 for every input row. *)
Definition predict_constant (self : t) (input_data : matrix F)
  : result (list label) :=
  Ok (repeat 1%Z (length input_data)).

Definition get_accuracy (self : t) : result Q :=
  match model self with
  | Some m => estimator_score m (X_test self) (y_test self)
  | None => Raise AttributeError
  end.

Definition run_pipeline (self : t) : result t :=
  self1 <- load_dataset self ;;
  train self1.
End Methods.
End SimplePipeline.

(** ** class PipelineWithDataEngineering(SimplePipeline) *)

Module PipelineWithDataEngineering.
Section Methods.
Context {F : Type}.
Variable np : NumpyRandom.
Variable np_random : RandomState np.
Variable load_iris : Bunch F.
Context {LogisticRegression : Classifier F}.
(** [StandardScaler()]. *)
Context {StandardScaler : Scaler F}.

(** The inherited attributes and [scaler].  [__init__] creates the scaler
    and fits it in its next statement, so an instance only ever shows a
    fitted scaler: the field holds the fitted parameters. *)
Record t : Type := {
  base : SimplePipeline.t (F := F);
  scaler : scaler_params
}.

Definition with_base (self : t) (b : SimplePipeline.t) : t :=
  {| base := b; scaler := scaler self |}.

Definition __init__ : result t :=
  b <- SimplePipeline.__init__ np np_random load_iris ;;
  sc <- scaler_fit (SimplePipeline.X_train b) ;;
  Ok {| base := b; scaler := sc |}.

(** Inherited unchanged from [SimplePipeline]. *)
Definition load_dataset (self : t) : result t :=
  b <- SimplePipeline.load_dataset np np_random load_iris (base self) ;;
  Ok (with_base self b).

Definition train (self : t) : result t :=
  b <- SimplePipeline.train (base self) ;;
  Ok (with_base self b).

Definition get_accuracy (self : t) : result Q :=
  SimplePipeline.get_accuracy (base self).

(** New and overridden methods. *)
Definition apply_scaler (self : t) : result t :=
  X_train' <- scaler_transform (scaler self)
                               (SimplePipeline.X_train (base self)) ;;
  X_test' <- scaler_transform (scaler self)
                              (SimplePipeline.X_test (base self)) ;;
  Ok (with_base self (SimplePipeline.set_X (base self) X_train' X_test')).

Definition predict (self : t) (input_data : matrix F)
  : result (list label) :=
  scaled_input_data <- scaler_transform (scaler self) input_data ;;
  match SimplePipeline.model (base self) with
  | Some m => estimator_predict m scaled_input_data
  | None => Raise AttributeError
  end.

Definition run_pipeline (self : t) : result t :=
  self1 <- load_dataset self ;;
  self2 <- apply_scaler self1 ;;
  train self2.

(** The [run_pipeline] of the class as the model-quality notebook
    redefines it in its last exercise, with the call of [apply_scaler]
    commented out. *)
Definition run_pipeline_unscaled (self : t) : result t :=
  self1 <- load_dataset self ;;
  train self1.

(** The public methods, for reasoning about arbitrary call sequences. *)
Inductive call : Type :=
| call_load_dataset
| call_apply_scaler
| call_train
| call_predict (input_data : matrix F)
| call_get_accuracy
| call_run_pipeline.

(** The instance after one call; [predict] and [get_accuracy] return a
    value and leave the instance as it is. *)
Definition exec (c : call) (self : t) : result t :=
  match c with
  | call_load_dataset => load_dataset self
  | call_apply_scaler => apply_scaler self
  | call_train => train self
  | call_predict input_data => _ <- predict self input_data ;; Ok self
  | call_get_accuracy => _ <- get_accuracy self ;; Ok self
  | call_run_pipeline => run_pipeline self
  end.

Fixpoint execs (cs : list call) (self : t) : result t :=
  match cs with
  | [] => Ok self
  | c :: cs' => self' <- exec c self ;; execs cs' self'
  end.
End Methods.
End PipelineWithDataEngineering.

(** ** class TestIrisPredictions *)

Module TestIrisPredictions.
Section Tests.
Context {F : Type}.
Variable np : NumpyRandom.
Variable np_random : RandomState np.
Variable load_iris : Bunch F.
Context {LogisticRegression : Classifier F}.
Context {StandardScaler : Scaler F}.

Record t : Type := {
  pipeline_v1 : SimplePipeline.t (F := F);
  pipeline_v2 : PipelineWithDataEngineering.t (F := F);
  benchmark_predictions : list label
}.

Definition setUp : result t :=
  v1 <- SimplePipeline.__init__ np np_random load_iris ;;
  v2 <- PipelineWithDataEngineering.__init__ np np_random load_iris ;;
  v1' <- SimplePipeline.run_pipeline np np_random load_iris v1 ;;
  v2' <- PipelineWithDataEngineering.run_pipeline np np_random load_iris v2 ;;
  Ok {| pipeline_v1 := v1'; pipeline_v2 := v2';
        benchmark_predictions :=
          repeat 1%Z (length (SimplePipeline.y_test v1')) |}.

(** [setUp] with the classes of the last exercise of the notebook, where
    [run_pipeline] of the subclass no longer calls [apply_scaler]. *)
Definition setUp_unscaled : result t :=
  v1 <- SimplePipeline.__init__ np np_random load_iris ;;
  v2 <- PipelineWithDataEngineering.__init__ np np_random load_iris ;;
  v1' <- SimplePipeline.run_pipeline np np_random load_iris v1 ;;
  v2' <- PipelineWithDataEngineering.run_pipeline_unscaled
           np np_random load_iris v2 ;;
  Ok {| pipeline_v1 := v1'; pipeline_v2 := v2';
        benchmark_predictions :=
          repeat 1%Z (length (SimplePipeline.y_test v1')) |}.

Definition Qlt_bool (a b : Q) : bool := negb (Qle_bool b a).

(** The accuracy of the benchmark, as the first test computes it. *)
Definition benchmark_accuracy (self : t) : result Q :=
  accuracy_score (SimplePipeline.y_test (pipeline_v1 self))
                 (benchmark_predictions self).

(** The accuracy of the model, as the first test computes it. *)
Definition actual_accuracy (self : t) : result Q :=
  predictions <- SimplePipeline.predict (pipeline_v1 self)
                   (SimplePipeline.X_test (pipeline_v1 self)) ;;
  accuracy_score (SimplePipeline.y_test (pipeline_v1 self)) predictions.

(** Each test returns whether its assertion holds. *)
Definition test_accuracy_higher_than_benchmark (self : t) : result bool :=
  benchmark <- benchmark_accuracy self ;;
  actual <- actual_accuracy self ;;
  Ok (Qlt_bool benchmark actual).

(** The same test with [predict] of the first exercise. *)
Definition test_accuracy_higher_than_benchmark_constant (self : t)
  : result bool :=
  benchmark <- benchmark_accuracy self ;;
  predictions <- SimplePipeline.predict_constant (pipeline_v1 self)
                   (SimplePipeline.X_test (pipeline_v1 self)) ;;
  actual <- accuracy_score (SimplePipeline.y_test (pipeline_v1 self))
                           predictions ;;
  Ok (Qlt_bool benchmark actual).

Definition test_accuracy_compared_to_previous_version (self : t)
  : result bool :=
  v1_accuracy <- SimplePipeline.get_accuracy (pipeline_v1 self) ;;
  v2_accuracy <- PipelineWithDataEngineering.get_accuracy
                   (pipeline_v2 self) ;;
  Ok (Qle_bool v1_accuracy v2_accuracy).
End Tests.
End TestIrisPredictions.

(** ** sklearn.preprocessing.StandardScaler, over the reals *)

Module StandardScaler.
Local Open Scope R_scope.

Definition Rsum (l : list R) : R := fold_right Rplus 0 l.

(** [np.mean], and [np.var] and [np.std] with their default [ddof=0]. *)
Definition mean (l : list R) : R := Rsum l / INR (length l).

Definition var (l : list R) : R :=
  mean (map (fun x => (x - mean l) * (x - mean l)) l).

Definition std (l : list R) : R := sqrt (var l).

(** Feature [j] of a matrix: its [j]-th column. *)
Definition column (j : nat) (X : matrix R) : list R :=
  map (fun row => nth j row 0) X.

(** [_handle_zeros_in_scale]: a constant feature is divided by one. *)
Definition _handle_zeros_in_scale (s : R) : R :=
  if Req_dec_T s 0 then 1 else s.

(** The fitted attributes [mean_] and [scale_], one entry per feature,
    and the constructor argument [with_mean]. *)
Record params : Type := {
  with_mean : bool;
  mean_ : list R;
  scale_ : list R
}.

(** [fit]: per-feature mean and standard deviation of the rows.  An
    empty or ragged array is refused. *)
Definition fit (with_mean' : bool) (X : matrix R) : result params :=
  match X with
  | [] => Raise ValueError
  | row0 :: _ =>
      let d := length row0 in
      if forallb (fun row => Nat.eqb (length row) d) X then
        Ok {| with_mean := with_mean';
              mean_ := map (fun j => mean (column j X)) (seq 0 d);
              scale_ := map (fun j => _handle_zeros_in_scale
                                        (std (column j X))) (seq 0 d) |}
      else Raise ValueError
  end.

(** One entry [x] of feature [j]: centred when [with_mean], then divided
    by the scale. *)
Definition transform_entry (p : params) (x : R) (ms : R * R) : R :=
  ((if with_mean p then x - fst ms else x) / snd ms).

Definition transform_row (p : params) (row : list R) : result (list R) :=
  if Nat.eqb (length row) (length (mean_ p)) then
    Ok (map (fun xms => transform_entry p (fst xms) (snd xms))
            (combine row (combine (mean_ p) (scale_ p))))
  else Raise ValueError.

(** [transform]: every row, feature by feature.  An empty array and a
    row of another width are refused. *)
Definition transform (p : params) (X : matrix R) : result (matrix R) :=
  match X with
  | [] => Raise ValueError
  | _ => mapM (transform_row p) X
  end.

(** [StandardScaler(with_mean=...)] as a transformer. *)
Definition scaler (with_mean' : bool) : Scaler R :=
  {| scaler_params := params;
     scaler_fit := fit with_mean';
     scaler_transform := transform |}.
End StandardScaler.

(** [StandardScaler()], with the default [with_mean=True]. *)
#[export] Instance StandardScaler_default : Scaler R :=
  StandardScaler.scaler true.

(** ** class TestIrisDataEngineering *)

Module TestIrisDataEngineering.
Section Tests.
Variable np : NumpyRandom.
Variable np_random : RandomState np.
Variable load_iris : Bunch R.
Context {LogisticRegression : Classifier R}.
Local Open Scope R_scope.

(** The fixture is the attribute [pipeline]. *)
Definition setUp : result PipelineWithDataEngineering.t :=
  pipeline <- PipelineWithDataEngineering.__init__ np np_random load_iris ;;
  PipelineWithDataEngineering.load_dataset np np_random load_iris pipeline.

(** [X.stack().mean()] of a frame and [X.mean()], [X.std()] of an array:
    over all the entries. *)
Definition mean_all (X : matrix R) : R := StandardScaler.mean (concat X).
Definition std_all (X : matrix R) : R := StandardScaler.std (concat X).

(** [assertAlmostEqual(a, b, places=3)]: the difference rounds to zero at
    three decimal places. *)
Definition assertAlmostEqual3 (a b : R) : Prop :=
  a = b \/ Rabs (a - b) < 5 / 10000.

(** Each test returns the instance after the call of [apply_scaler]
    together with what it asserts of it. *)
Definition test_scaler_preprocessing_brings_x_train_mean_near_zero
           (pipeline : PipelineWithDataEngineering.t)
  : result Prop :=
  let original_mean :=
    mean_all (SimplePipeline.X_train
                (PipelineWithDataEngineering.base pipeline)) in
  pipeline' <- PipelineWithDataEngineering.apply_scaler pipeline ;;
  let X_train' := SimplePipeline.X_train
                    (PipelineWithDataEngineering.base pipeline') in
  Ok (original_mean > mean_all X_train' /\
      assertAlmostEqual3 (mean_all X_train') 0).

Definition test_scaler_preprocessing_brings_x_train_std_near_one
           (pipeline : PipelineWithDataEngineering.t)
  : result Prop :=
  pipeline' <- PipelineWithDataEngineering.apply_scaler pipeline ;;
  let X_train' := SimplePipeline.X_train
                    (PipelineWithDataEngineering.base pipeline') in
  Ok (assertAlmostEqual3 (std_all X_train') 1).
End Tests.
End TestIrisDataEngineering.

(** ** Notions used to state the properties *)

(** The rows that a list of positions selects, out-of-range positions
    skipped; [_safe_indexing] returns exactly them when it returns. *)
Definition gather {A : Type} (a : list A) (idx : list nat) : list A :=
  flat_map (fun i => match nth_error a i with
                     | Some x => [x]
                     | None => []
                     end) idx.

(** The test size for [n] samples at [test_size=0.65]: 65% of [n], rounded
    up to whole rows. *)
Definition n_test_of (n : nat) : nat :=
  Z.to_nat (Qceiling ((65 # 100) * inject_Z (Z.of_nat n))).

(** The positions that [load_dataset] selects for training and for test. *)
Definition iris_indices {F : Type} (np : NumpyRandom) (load_iris : Bunch F)
  : list nat * list nat :=
  let n := length (data load_iris) in
  shuffle_split_indices np (seed np 42) n (n - n_test_of n) (n_test_of n)
                        (Some 42%Z).

(** The four arrays of the split held by an instance, or the exception. *)
Definition split_of {F : Type} `{Classifier F}
           (r : result (SimplePipeline.t (F := F)))
  : result (matrix F * matrix F * list label * list label) :=
  s <- r ;;
  Ok (SimplePipeline.X_train s, SimplePipeline.X_test s,
      SimplePipeline.y_train s, SimplePipeline.y_test s).

(** The inherited part of an instance of the subclass, or the exception. *)
Definition base_of {F : Type} `{Classifier F} `{Scaler F}
           (r : result (PipelineWithDataEngineering.t (F := F)))
  : result (SimplePipeline.t (F := F)) :=
  p <- r ;; Ok (PipelineWithDataEngineering.base p).

(** How many entries of [y] carry the label [c]. *)
Definition count_label (c : label) (y : list label) : nat :=
  count_occ Z.eq_dec y c.

(** The count of the most common label of [y]. *)
Definition most_common_count (y : list label) : nat :=
  list_max (map (fun c => count_label c y) y).


(** An instance holds one label per row, and neither part is empty. *)
Definition aligned {F : Type} `{Classifier F}
           (s : SimplePipeline.t (F := F)) : Prop :=
  length (SimplePipeline.X_test s) = length (SimplePipeline.y_test s) /\
  length (SimplePipeline.X_train s) = length (SimplePipeline.y_train s) /\
  SimplePipeline.y_test s <> [] /\ SimplePipeline.y_train s <> [].

(** The rows of the data set that [load_dataset] selects for training. *)
Definition training_rows {F : Type} (np : NumpyRandom) (load_iris : Bunch F)
  : matrix F :=
  gather (data load_iris) (fst (iris_indices np load_iris)).

(** ** A small environment to run the classes in *)

Module Example.
Local Open Scope R_scope.

(** A generator whose permutation is the identity. *)
Definition np_identity : NumpyRandom :=
  {| RandomState := unit;
     seed := fun _ => tt;
     permutation := fun _ n => seq 0 n;
     permutation_perm := fun _ n => Permutation_refl (seq 0 n) |}.

(** A generator with two states, one per order of the rows; seeding gives
    the first. *)
Definition np_two_states : NumpyRandom :=
  {| RandomState := bool;
     seed := fun _ => true;
     permutation := fun g n => if g then seq 0 n else rev (seq 0 n);
     permutation_perm :=
       fun g n =>
         match g return
               Permutation (if g then seq 0 n else rev (seq 0 n)) (seq 0 n)
         with
         | true => Permutation_refl (seq 0 n)
         | false => Permutation_sym (Permutation_rev (seq 0 n))
         end |}.

(** Six rows of four features.  With the identity permutation the first
    four rows are the test split and the last two the training split. *)
Definition six_rows : Bunch R :=
  {| data := [ [0; 0; 0; 0]; [4; 2; 4; 2]; [10; 2; 10; 2]; [0; 0; 0; 0];
               [0; 0; 0; 0]; [10; 2; 10; 2] ];
     target := [0; 0; 1; 0; 0; 1]%Z;
     bunch_feature_names :=
       [ "sepal length (cm)"; "sepal width (cm)";
         "petal length (cm)"; "petal width (cm)" ]%string |}.

(** Squared Euclidean distance of two rows. *)
Definition sqdist (a b : list R) : R :=
  StandardScaler.Rsum
    (map (fun p => (fst p - snd p) * (fst p - snd p)) (combine a b)).

(** The label of the training row nearest to [row], [best] being the
    nearest so far; an earlier row wins a tie. *)
Fixpoint nearest (train : list (list R * label)) (row : list R)
         (best : list R * label) : label :=
  match train with
  | [] => snd best
  | c :: train' =>
      if Rlt_dec (sqdist row (fst c)) (sqdist row (fst best))
      then nearest train' row c
      else nearest train' row best
  end.

(** A one-nearest-neighbour classifier: [fit] keeps the labelled training
    rows (at least one), [predict] labels a row as its nearest one. *)
Definition nearest_neighbour : Classifier R :=
  {| estimator := (list R * label) * list (list R * label);
     estimator_fit :=
       fun X y => match combine X y with
                  | [] => Raise ValueError
                  | c :: train' => Ok (c, train')
                  end;
     estimator_predict :=
       fun m X => Ok (map (fun row => nearest (snd m) row (fst m)) X);
     estimator_predict_length :=
       fun m X p H =>
         match H in (_ = r) return
               match r with
               | Ok p' => length p' = length X
               | Raise _ => True
               end
         with
         | eq_refl => length_map (fun row => nearest (snd m) row (fst m)) X
         end |}.

(** The state of a [SimplePipeline] on [six_rows] after [__init__]. *)
Definition loaded : SimplePipeline.t (LogisticRegression := nearest_neighbour) :=
  {| SimplePipeline.frame :=
       {| columns := [ "sepal length"; "sepal width"; "petal length";
                       "petal width"; "target" ]%string;
          values := data six_rows;
          frame_target := target six_rows |};
     SimplePipeline.feature_names :=
       [ "sepal length"; "sepal width"; "petal length";
         "petal width" ]%string;
     SimplePipeline.X_train := [ [0; 0; 0; 0]; [10; 2; 10; 2] ];
     SimplePipeline.X_test :=
       [ [0; 0; 0; 0]; [4; 2; 4; 2]; [10; 2; 10; 2]; [0; 0; 0; 0] ];
     SimplePipeline.y_train := [0; 1]%Z;
     SimplePipeline.y_test := [0; 0; 1; 0]%Z;
     SimplePipeline.Y_test := None;
     SimplePipeline.model := None |}.

(** The scaler fitted on the two training rows: the features have means
    5, 1, 5, 1 and standard deviations 5, 1, 5, 1. *)
Definition fitted : StandardScaler.params :=
  {| StandardScaler.with_mean := true;
     StandardScaler.mean_ := [5; 1; 5; 1];
     StandardScaler.scale_ := [5; 1; 5; 1] |}.

(** A row and an array of four features scaled by [fitted]. *)
Definition scaled_row (row : list R) : list R :=
  map (fun xms => StandardScaler.transform_entry fitted (fst xms) (snd xms))
      (combine row (combine (StandardScaler.mean_ fitted)
                            (StandardScaler.scale_ fitted))).

Definition scaled (X : matrix R) : matrix R := map scaled_row X.

(** A [PipelineWithDataEngineering] on [six_rows] after [__init__]. *)
Definition constructed
  : PipelineWithDataEngineering.t (LogisticRegression := nearest_neighbour) :=
  {| PipelineWithDataEngineering.base := loaded;
     PipelineWithDataEngineering.scaler := fitted |}.

(** An instance whose scaler holds parameters of other data: mean 0 and
    scale 1 in every feature. *)
Definition stale
  : PipelineWithDataEngineering.t (LogisticRegression := nearest_neighbour) :=
  {| PipelineWithDataEngineering.base := loaded;
     PipelineWithDataEngineering.scaler :=
       {| StandardScaler.with_mean := true;
          StandardScaler.mean_ := [0; 0; 0; 0];
          StandardScaler.scale_ := [1; 1; 1; 1] |} |}.

(** The fitted models of the two pipelines: the labelled training rows,
    as loaded and scaled. *)
Definition model_v1 : (list R * label) * list (list R * label) :=
  (([0; 0; 0; 0], 0%Z), [([10; 2; 10; 2], 1%Z)]).

Definition model_v2 : (list R * label) * list (list R * label) :=
  ((scaled_row [0; 0; 0; 0], 0%Z), [(scaled_row [10; 2; 10; 2], 1%Z)]).

(** The two pipelines as [TestIrisPredictions.setUp] leaves them. *)
Definition v1 : SimplePipeline.t (LogisticRegression := nearest_neighbour) :=
  SimplePipeline.set_model loaded (Some model_v1).

Definition v2
  : PipelineWithDataEngineering.t (LogisticRegression := nearest_neighbour) :=
  {| PipelineWithDataEngineering.base :=
       SimplePipeline.set_model
         (SimplePipeline.set_X loaded
            (scaled (SimplePipeline.X_train loaded))
            (scaled (SimplePipeline.X_test loaded)))
         (Some model_v2);
     PipelineWithDataEngineering.scaler := fitted |}.

Definition fixture
  : TestIrisPredictions.t (LogisticRegression := nearest_neighbour) :=
  {| TestIrisPredictions.pipeline_v1 := v1;
     TestIrisPredictions.pipeline_v2 := v2;
     TestIrisPredictions.benchmark_predictions := [1; 1; 1; 1]%Z |}.

(** The data set with 150 rows of four features and three classes of 50
    rows each. *)
Definition rows_150 : Bunch R :=
  {| data := map (fun i => [INR i; INR (i / 50); 0; 1]) (seq 0 150);
     target := map (fun i => Z.of_nat (i / 50)) (seq 0 150);
     bunch_feature_names :=
       [ "sepal length (cm)"; "sepal width (cm)";
         "petal length (cm)"; "petal width (cm)" ]%string |}.
End Example.

(** ** Further notions: calls that train, the exercises' fixtures *)

(** The calls that fit the model. *)
Definition fits_model {F : Type} (c : @PipelineWithDataEngineering.call F)
  : bool :=
  match c with
  | PipelineWithDataEngineering.call_train
  | PipelineWithDataEngineering.call_run_pipeline => true
  | _ => false
  end.


(** ** The exercise of the data-engineering notebook *)

(** The notebook redefines [PipelineWithDataEngineering] with
    [StandardScaler(with_mean=False)] and runs [TestIrisDataEngineering]
    again.  The class and the tests are the ones above, with the scaler
    taking its [with_mean] from a parameter. *)
Module DataEngineeringExercise.
Section Tests.
Variable np : NumpyRandom.
Variable np_random : RandomState np.
Variable load_iris : Bunch R.
Context {LogisticRegression : Classifier R}.
Variable with_mean : bool.
Local Open Scope R_scope.

Definition pipeline_t : Type :=
  @PipelineWithDataEngineering.t R LogisticRegression
                                 (StandardScaler.scaler with_mean).

Definition setUp : result pipeline_t :=
  pipeline <- @PipelineWithDataEngineering.__init__
                R np np_random load_iris LogisticRegression
                (StandardScaler.scaler with_mean) ;;
  PipelineWithDataEngineering.load_dataset np np_random load_iris pipeline.

Definition test_scaler_preprocessing_brings_x_train_mean_near_zero
           (pipeline : pipeline_t) : result Prop :=
  let original_mean :=
    TestIrisDataEngineering.mean_all
      (SimplePipeline.X_train (PipelineWithDataEngineering.base pipeline)) in
  pipeline' <- PipelineWithDataEngineering.apply_scaler pipeline ;;
  let X_train' := SimplePipeline.X_train
                    (PipelineWithDataEngineering.base pipeline') in
  Ok (original_mean > TestIrisDataEngineering.mean_all X_train' /\
      TestIrisDataEngineering.assertAlmostEqual3
        (TestIrisDataEngineering.mean_all X_train') 0).

Definition test_scaler_preprocessing_brings_x_train_std_near_one
           (pipeline : pipeline_t) : result Prop :=
  pipeline' <- PipelineWithDataEngineering.apply_scaler pipeline ;;
  let X_train' := SimplePipeline.X_train
                    (PipelineWithDataEngineering.base pipeline') in
  Ok (TestIrisDataEngineering.assertAlmostEqual3
        (TestIrisDataEngineering.std_all X_train') 1).
End Tests.
End DataEngineeringExercise.

(** ** More of the small environment *)

Module ExampleMore.
Import Example.
Local Open Scope R_scope.



(** The fixture of [TestIrisPredictions] with the classes of the last
    exercise: the second pipeline holds what the first holds. *)
Definition fixture_unscaled
  : TestIrisPredictions.t (LogisticRegression := nearest_neighbour) :=
  {| TestIrisPredictions.pipeline_v1 := v1;
     TestIrisPredictions.pipeline_v2 :=
       {| PipelineWithDataEngineering.base := v1;
          PipelineWithDataEngineering.scaler := fitted |};
     TestIrisPredictions.benchmark_predictions := [1; 1; 1; 1]%Z |}.
End ExampleMore.

(** * Properties *)

(** ** The error monad *)

Lemma bind_Ok {A B : Type} (c : result A) (k : A -> result B) (b : B) :
  bind c k = Ok b -> exists a, c = Ok a /\ k a = Ok b.
Proof.
  destruct c as [a|e]; simpl; intros Hk.
  - exists a; split; [reflexivity | exact Hk].
  - discriminate.
Qed.

(** Splits a hypothesis [x <- c ;; k = Ok b] into its two steps. *)
Ltac bind_inv H :=
  let a := fresh "a" in
  let Ha := fresh "Ha" in
  apply bind_Ok in H; destruct H as [a [Ha H]].

Lemma mapM_length {A B : Type} (f : A -> result B) (l : list A) (l' : list B) :
  mapM f l = Ok l' -> length l' = length l.
Proof.
  revert l'; induction l as [|a l IH]; simpl; intros l' H.
  - injection H as <-; reflexivity.
  - bind_inv H. bind_inv H. injection H as <-.
    simpl; f_equal; apply IH; assumption.
Qed.

(** ** Indexing and the shuffle split *)

Lemma _safe_indexing_gather {A : Type} (a : list A) (idx : list nat) :
  Forall (fun i => i < length a) idx ->
  _safe_indexing a idx = Ok (gather a idx) /\
  length (gather a idx) = length idx.
Proof.
  induction 1 as [|i idx Hi _ [IH1 IH2]]; simpl.
  - split; reflexivity.
  - destruct (nth_error a i) as [x|] eqn:Hx.
    + rewrite IH1; simpl; split; [reflexivity | now rewrite IH2].
    + apply nth_error_None in Hx; lia.
Qed.

Lemma gather_seq {A : Type} (a : list A) :
  gather a (seq 0 (length a)) = a.
Proof.
  enough (H : forall pre, gather (pre ++ a) (seq (length pre) (length a)) = a)
    by exact (H []).
  induction a as [|x a IH]; intros pre; simpl.
  - reflexivity.
  - rewrite nth_error_app2, Nat.sub_diag by lia; simpl.
    f_equal.
    specialize (IH (pre ++ [x])).
    rewrite <- app_assoc, length_app in IH; simpl in IH.
    rewrite Nat.add_1_r in IH; exact IH.
Qed.

Lemma gather_Permutation {A : Type} (a : list A) (idx idx' : list nat) :
  Permutation idx idx' -> Permutation (gather a idx) (gather a idx').
Proof. intros H; unfold gather; now rewrite H. Qed.

Lemma gather_In {A : Type} (a : list A) (idx : list nat) (x : A) :
  In x (gather a idx) -> In x a.
Proof.
  unfold gather; rewrite in_flat_map; intros [i [_ Hx]].
  destruct (nth_error a i) as [y|] eqn:Hy; simpl in Hx; [|contradiction].
  destruct Hx as [<-|[]]; eapply nth_error_In; eassumption.
Qed.

Section SplitFacts.
Variable np : NumpyRandom.
Variable np_random : RandomState np.

Lemma permutation_bound (g : RandomState np) (n i : nat) :
  In i (permutation np g n) -> i < n.
Proof.
  intros Hi.
  apply (Permutation_in _ (permutation_perm np g n)) in Hi.
  apply in_seq in Hi; lia.
Qed.

Lemma permutation_length (g : RandomState np) (n : nat) :
  length (permutation np g n) = n.
Proof.
  rewrite (Permutation_length (permutation_perm np g n)); apply length_seq.
Qed.

(** The two index lists together are the whole permutation, provided the
    two sizes add up to the number of samples. *)
Lemma shuffle_split_indices_app (n n_train n_test : nat) (rs : option Z) :
  n_train + n_test = n ->
  let '(ind_train, ind_test) :=
    shuffle_split_indices np np_random n n_train n_test rs in
  ind_test ++ ind_train = permutation np (check_random_state np np_random rs) n
  /\ length ind_test = n_test /\ length ind_train = n_train.
Proof.
  intros Hn; unfold shuffle_split_indices.
  set (perm := permutation np _ n).
  assert (Hlen : length perm = n) by apply permutation_length.
  repeat split.
  - rewrite <- (firstn_skipn n_test perm) at 3; f_equal.
    apply firstn_all2; rewrite length_skipn; lia.
  - rewrite length_firstn; lia.
  - rewrite length_firstn, length_skipn; lia.
Qed.

(** What [_validate_shuffle_split] returns on a valid [test_size]. *)
Lemma _validate_shuffle_split_sizes (n n_train n_test : nat) (ts : Q) :
  _validate_shuffle_split n ts = Ok (n_train, n_test) ->
  n_test = Z.to_nat (Qceiling (ts * inject_Z (Z.of_nat n))) /\
  n_train + n_test = n /\ 0 < n_train.
Proof.
  unfold _validate_shuffle_split.
  destruct (Qle_bool ts 0) eqn:H0; [discriminate|].
  destruct (Qle_bool 1 ts) eqn:H1; [discriminate|]; simpl.
  set (k := Z.to_nat _).
  destruct (n - k =? 0) eqn:Hk; [discriminate|].
  apply Nat.eqb_neq in Hk.
  intros H; injection H as <- <-.
  repeat split; lia.
Qed.

(** [train_test_split] returns whenever its two arrays have one length
    and the sizes are accepted, and what it returns is the rows at the
    two index lists. *)
Lemma train_test_split_Ok {A B : Type} (X : list A) (y : list B)
      (ts : Q) (rs : option Z) (n_train n_test : nat) :
  length X = length y ->
  _validate_shuffle_split (length X) ts = Ok (n_train, n_test) ->
  let '(ind_train, ind_test) :=
    shuffle_split_indices np np_random (length X) n_train n_test rs in
  train_test_split np np_random X y ts rs =
    Ok (gather X ind_train, gather X ind_test,
        gather y ind_train, gather y ind_test).
Proof.
  intros Hlen Hv.
  destruct (_validate_shuffle_split_sizes _ _ Hv) as [_ [Hsum _]].
  pose proof (@shuffle_split_indices_app _ n_train n_test rs Hsum) as Happ.
  unfold train_test_split.
  rewrite Hv, Hlen, Nat.eqb_refl, <- Hlen.
  unfold shuffle_split_indices in *; cbn [bind negb] in *.
  set (ind_train := firstn n_train _) in *.
  set (ind_test := firstn n_test _) in *.
  destruct Happ as [Happ _].
  assert (Hb : Forall (fun i => i < length X) (ind_test ++ ind_train)).
  { rewrite Happ; apply Forall_forall; intros i; apply permutation_bound. }
  apply Forall_app in Hb; destruct Hb as [Hte Htr].
  rewrite (proj1 (_safe_indexing_gather X Htr)).
  rewrite (proj1 (_safe_indexing_gather X Hte)).
  rewrite Hlen in Htr, Hte.
  rewrite (proj1 (_safe_indexing_gather y Htr)).
  rewrite (proj1 (_safe_indexing_gather y Hte)).
  reflexivity.
Qed.
End SplitFacts.

(** ** The split that [load_dataset] stores *)

Section LoadDataset.
Context {F : Type}.
Variable np : NumpyRandom.
Variable load_iris : Bunch F.
Context {LogisticRegression : Classifier F}.

(** A seeded split does not look at the global generator. *)
Lemma load_dataset_seeded (g1 g2 : RandomState np)
      (s : SimplePipeline.t) :
  SimplePipeline.load_dataset np g1 load_iris s =
  SimplePipeline.load_dataset np g2 load_iris s.
Proof. reflexivity. Qed.

(** The new split does not depend on the instance it is stored in. *)
Lemma load_dataset_split_of (g : RandomState np)
      (s1 s2 : SimplePipeline.t) :
  split_of (SimplePipeline.load_dataset np g load_iris s1) =
  split_of (SimplePipeline.load_dataset np g load_iris s2).
Proof.
  unfold split_of, SimplePipeline.load_dataset.
  destruct (train_test_split _ _ _ _ _ _) as [[[[Xtr Xte] ytr] yte]|e];
    reflexivity.
Qed.

(** [load_dataset] returns exactly when the data and the target have one
    length and the training part is not empty; it then stores the rows at
    [iris_indices]. *)
Lemma load_dataset_Ok (g : RandomState np) (self : SimplePipeline.t) :
  length (data load_iris) = length (target load_iris) ->
  n_test_of (length (data load_iris)) < length (data load_iris) ->
  exists s',
    SimplePipeline.load_dataset np g load_iris self = Ok s' /\
    SimplePipeline.X_train s' =
      gather (data load_iris) (fst (iris_indices np load_iris)) /\
    SimplePipeline.X_test s' =
      gather (data load_iris) (snd (iris_indices np load_iris)) /\
    SimplePipeline.y_train s' =
      gather (target load_iris) (fst (iris_indices np load_iris)) /\
    SimplePipeline.y_test s' =
      gather (target load_iris) (snd (iris_indices np load_iris)) /\
    SimplePipeline.model s' = SimplePipeline.model self /\
    SimplePipeline.Y_test s' = SimplePipeline.Y_test self.
Proof.
  intros Hlen Hlt.
  assert (Hv : _validate_shuffle_split (length (data load_iris)) (65 # 100) =
               Ok (length (data load_iris)
                   - n_test_of (length (data load_iris)),
                   n_test_of (length (data load_iris)))).
  { unfold _validate_shuffle_split.
    fold (n_test_of (length (data load_iris))); simpl.
    destruct (_ - _ =? 0) eqn:E; [|reflexivity].
    apply Nat.eqb_eq in E; lia. }
  pose proof (@train_test_split_Ok np g _ _ (data load_iris)
                (target load_iris) _ (Some 42%Z) _ _ Hlen Hv) as Hs.
  unfold iris_indices, shuffle_split_indices in *.
  cbn [check_random_state fst snd] in *.
  unfold SimplePipeline.load_dataset.
  cbn [values frame_target].
  rewrite Hs; cbn [bind].
  eexists; split; [reflexivity|].
  repeat split; reflexivity.
Qed.

Lemma load_dataset_inv (g : RandomState np) (self s' : SimplePipeline.t) :
  SimplePipeline.load_dataset np g load_iris self = Ok s' ->
  length (data load_iris) = length (target load_iris) /\
  n_test_of (length (data load_iris)) < length (data load_iris).
Proof.
  unfold SimplePipeline.load_dataset, train_test_split; simpl.
  destruct (length (data load_iris) =? length (target load_iris)) eqn:E;
    simpl; [|discriminate].
  apply Nat.eqb_eq in E.
  destruct (_validate_shuffle_split _ _) as [[n_train n_test]|e] eqn:Hv;
    simpl; [|discriminate].
  intros _.
  apply _validate_shuffle_split_sizes in Hv.
  fold (n_test_of (length (data load_iris))) in Hv.
  split; [exact E | lia].
Qed.

(** The two index lists partition the row positions. *)
Lemma iris_indices_partition :
  n_test_of (length (data load_iris)) <= length (data load_iris) ->
  Permutation (snd (iris_indices np load_iris) ++
               fst (iris_indices np load_iris))
              (seq 0 (length (data load_iris))) /\
  length (snd (iris_indices np load_iris)) =
    n_test_of (length (data load_iris)) /\
  length (fst (iris_indices np load_iris)) =
    length (data load_iris) - n_test_of (length (data load_iris)).
Proof.
  intros Hle.
  unfold iris_indices.
  set (n := length (data load_iris)) in *.
  assert (Hsum : (n - n_test_of n) + n_test_of n = n) by lia.
  pose proof (@shuffle_split_indices_app np (seed np 42) n _ _
                (Some 42%Z) Hsum) as H.
  destruct (shuffle_split_indices np (seed np 42) n _ _ _)
    as [ind_train ind_test]; simpl.
  destruct H as [Happ [H1 H2]].
  rewrite Happ; repeat split; try assumption.
  apply permutation_perm.
Qed.
End LoadDataset.

(** ** The scaler is fitted once *)

Section ScalerInvariant.
Context {F : Type}.
Variable np : NumpyRandom.
Variable np_random : RandomState np.
Variable load_iris : Bunch F.
Context {LogisticRegression : Classifier F}.
Context {StandardScaler : Scaler F}.

Local Abbreviation PWDE_t := (PipelineWithDataEngineering.t (F := F)).
Local Abbreviation exec := (PipelineWithDataEngineering.exec np np_random load_iris).
Local Abbreviation execs := (PipelineWithDataEngineering.execs np np_random load_iris).

Lemma load_dataset_scaler (p p' : PWDE_t) :
  PipelineWithDataEngineering.load_dataset np np_random load_iris p = Ok p' ->
  PipelineWithDataEngineering.scaler p' = PipelineWithDataEngineering.scaler p.
Proof.
  unfold PipelineWithDataEngineering.load_dataset; intros H.
  bind_inv H; injection H as <-; reflexivity.
Qed.

Lemma apply_scaler_scaler (p p' : PWDE_t) :
  PipelineWithDataEngineering.apply_scaler p = Ok p' ->
  PipelineWithDataEngineering.scaler p' = PipelineWithDataEngineering.scaler p.
Proof.
  unfold PipelineWithDataEngineering.apply_scaler; intros H.
  bind_inv H; bind_inv H; injection H as <-; reflexivity.
Qed.

Lemma train_scaler (p p' : PWDE_t) :
  PipelineWithDataEngineering.train p = Ok p' ->
  PipelineWithDataEngineering.scaler p' = PipelineWithDataEngineering.scaler p.
Proof.
  unfold PipelineWithDataEngineering.train; intros H.
  bind_inv H; injection H as <-; reflexivity.
Qed.

Lemma run_pipeline_scaler (p p' : PWDE_t) :
  PipelineWithDataEngineering.run_pipeline np np_random load_iris p = Ok p' ->
  PipelineWithDataEngineering.scaler p' = PipelineWithDataEngineering.scaler p.
Proof.
  unfold PipelineWithDataEngineering.run_pipeline; intros H.
  bind_inv H; bind_inv H.
  apply train_scaler in H; apply apply_scaler_scaler in Ha0.
  apply load_dataset_scaler in Ha; congruence.
Qed.

Lemma exec_scaler (c : PipelineWithDataEngineering.call) (p p' : PWDE_t) :
  exec c p = Ok p' ->
  PipelineWithDataEngineering.scaler p' = PipelineWithDataEngineering.scaler p.
Proof.
  destruct c; simpl; intros H.
  - now apply load_dataset_scaler.
  - now apply apply_scaler_scaler.
  - now apply train_scaler.
  - bind_inv H; now injection H as <-.
  - bind_inv H; now injection H as <-.
  - now apply run_pipeline_scaler.
Qed.

Lemma execs_scaler (cs : list PipelineWithDataEngineering.call)
      (p p' : PWDE_t) :
  execs cs p = Ok p' ->
  PipelineWithDataEngineering.scaler p' = PipelineWithDataEngineering.scaler p.
Proof.
  revert p; induction cs as [|c cs IH]; simpl; intros p H.
  - now injection H as <-.
  - bind_inv H. apply IH in H. apply exec_scaler in Ha. congruence.
Qed.

Lemma __init___scaler (p0 : PWDE_t) :
  PipelineWithDataEngineering.__init__ np np_random load_iris = Ok p0 ->
  scaler_fit (SimplePipeline.X_train (PipelineWithDataEngineering.base p0))
  = Ok (PipelineWithDataEngineering.scaler p0) /\
  SimplePipeline.__init__ np np_random load_iris
  = Ok (PipelineWithDataEngineering.base p0).
Proof.
  unfold PipelineWithDataEngineering.__init__; intros H.
  bind_inv H; bind_inv H; injection H as <-; simpl; split; assumption.
Qed.

(** C1.  The parameters of the scaler are those that [__init__] fitted on
    the training split; whatever methods are called afterwards, and in
    whatever order, the instance still holds these parameters, and
    [apply_scaler] (on the stored training and test splits) and the
    overridden [predict] (on its input) transform with exactly them. *)
Theorem scaler_fitted_once_and_reused (p0 : PWDE_t) :
  PipelineWithDataEngineering.__init__ np np_random load_iris = Ok p0 ->
  scaler_fit (SimplePipeline.X_train (PipelineWithDataEngineering.base p0))
  = Ok (PipelineWithDataEngineering.scaler p0) /\
  forall (cs : list PipelineWithDataEngineering.call) (p : PWDE_t),
    execs cs p0 = Ok p ->
    PipelineWithDataEngineering.scaler p
    = PipelineWithDataEngineering.scaler p0 /\
    PipelineWithDataEngineering.apply_scaler p =
      (X_train' <- scaler_transform
                     (PipelineWithDataEngineering.scaler p0)
                     (SimplePipeline.X_train
                        (PipelineWithDataEngineering.base p)) ;;
       X_test' <- scaler_transform
                    (PipelineWithDataEngineering.scaler p0)
                    (SimplePipeline.X_test
                       (PipelineWithDataEngineering.base p)) ;;
       Ok {| PipelineWithDataEngineering.base :=
               SimplePipeline.set_X (PipelineWithDataEngineering.base p)
                                    X_train' X_test';
             PipelineWithDataEngineering.scaler :=
               PipelineWithDataEngineering.scaler p0 |}) /\
    forall input_data : matrix F,
      PipelineWithDataEngineering.predict p input_data =
        (scaled <- scaler_transform
                     (PipelineWithDataEngineering.scaler p0) input_data ;;
         SimplePipeline.predict (PipelineWithDataEngineering.base p) scaled).
Proof.
  intros Hinit; split; [apply (__init___scaler Hinit)|].
  intros cs p Hcs.
  pose proof (execs_scaler _ _ Hcs) as Hsc.
  split; [exact Hsc|].
  unfold PipelineWithDataEngineering.apply_scaler,
    PipelineWithDataEngineering.predict,
    PipelineWithDataEngineering.with_base.
  rewrite Hsc; split; [reflexivity|].
  intros input_data; reflexivity.
Qed.

(** ** [run_pipeline] of the subclass *)

(** What [run_pipeline] does on any instance, whatever its scaler holds:
    it stores the transform, by the held parameters, of the split that
    [load_dataset] has just stored. *)
Lemma run_pipeline_steps (p p' : PWDE_t) :
  PipelineWithDataEngineering.run_pipeline np np_random load_iris p = Ok p' ->
  exists s1 : SimplePipeline.t,
    SimplePipeline.load_dataset np np_random load_iris
      (PipelineWithDataEngineering.base p) = Ok s1 /\
    scaler_transform (PipelineWithDataEngineering.scaler p)
                     (SimplePipeline.X_train s1)
    = Ok (SimplePipeline.X_train (PipelineWithDataEngineering.base p')) /\
    scaler_transform (PipelineWithDataEngineering.scaler p)
                     (SimplePipeline.X_test s1)
    = Ok (SimplePipeline.X_test (PipelineWithDataEngineering.base p')) /\
    SimplePipeline.y_train (PipelineWithDataEngineering.base p')
    = SimplePipeline.y_train s1 /\
    SimplePipeline.y_test (PipelineWithDataEngineering.base p')
    = SimplePipeline.y_test s1 /\
    PipelineWithDataEngineering.scaler p'
    = PipelineWithDataEngineering.scaler p.
Proof.
  intros H; pose proof (run_pipeline_scaler _ H) as Hsc.
  unfold PipelineWithDataEngineering.run_pipeline in H.
  bind_inv H; bind_inv H.
  unfold PipelineWithDataEngineering.load_dataset in Ha.
  bind_inv Ha; injection Ha as <-.
  unfold PipelineWithDataEngineering.apply_scaler in Ha0; simpl in Ha0.
  bind_inv Ha0; bind_inv Ha0; injection Ha0 as <-.
  unfold PipelineWithDataEngineering.train in H; simpl in H.
  bind_inv H; injection H as <-.
  unfold SimplePipeline.train in Ha0; simpl in Ha0.
  bind_inv Ha0; injection Ha0 as <-.
  exists a1; simpl; repeat split; assumption.
Qed.

(** Every split that [load_dataset] stores is the one held since
    construction. *)
Lemma load_dataset_same_split (s0 s s1 : SimplePipeline.t) :
  SimplePipeline.__init__ np np_random load_iris = Ok s0 ->
  SimplePipeline.load_dataset np np_random load_iris s = Ok s1 ->
  SimplePipeline.X_train s1 = SimplePipeline.X_train s0 /\
  SimplePipeline.X_test s1 = SimplePipeline.X_test s0 /\
  SimplePipeline.y_train s1 = SimplePipeline.y_train s0 /\
  SimplePipeline.y_test s1 = SimplePipeline.y_test s0.
Proof.
  unfold SimplePipeline.__init__; intros H0 H1.
  pose proof (load_dataset_split_of np load_iris np_random
                s SimplePipeline.unloaded) as Heq.
  rewrite H0, H1 in Heq; simpl in Heq.
  injection Heq as -> -> -> ->; repeat split; reflexivity.
Qed.

(** C10.  [run_pipeline] loads the split again and transforms it with the
    parameters the instance already holds, which it leaves as they are:
    on any instance, whatever its scaler was fitted on (first part).  For
    an instance built by [__init__] the reloaded training split is the one
    the scaler was fitted on, so the stored training data is the reloaded
    split scaled by its own statistics (second part). *)
Theorem run_pipeline_reuses_construction_scaler :
  (forall p p' : PWDE_t,
     PipelineWithDataEngineering.run_pipeline np np_random load_iris p
     = Ok p' ->
     PipelineWithDataEngineering.scaler p'
     = PipelineWithDataEngineering.scaler p /\
     exists s1 : SimplePipeline.t,
       SimplePipeline.load_dataset np np_random load_iris
         (PipelineWithDataEngineering.base p) = Ok s1 /\
       scaler_transform (PipelineWithDataEngineering.scaler p)
                        (SimplePipeline.X_train s1)
       = Ok (SimplePipeline.X_train (PipelineWithDataEngineering.base p')) /\
       scaler_transform (PipelineWithDataEngineering.scaler p)
                        (SimplePipeline.X_test s1)
       = Ok (SimplePipeline.X_test (PipelineWithDataEngineering.base p'))) /\
  (forall (p0 : PWDE_t) (cs : list PipelineWithDataEngineering.call)
          (p p' : PWDE_t),
     PipelineWithDataEngineering.__init__ np np_random load_iris = Ok p0 ->
     execs cs p0 = Ok p ->
     PipelineWithDataEngineering.run_pipeline np np_random load_iris p
     = Ok p' ->
     PipelineWithDataEngineering.scaler p'
     = PipelineWithDataEngineering.scaler p0 /\
     exists s1 : SimplePipeline.t,
       SimplePipeline.load_dataset np np_random load_iris
         (PipelineWithDataEngineering.base p) = Ok s1 /\
       SimplePipeline.X_train s1
       = SimplePipeline.X_train (PipelineWithDataEngineering.base p0) /\
       (sc <- scaler_fit (SimplePipeline.X_train s1) ;;
        scaler_transform sc (SimplePipeline.X_train s1))
       = Ok (SimplePipeline.X_train (PipelineWithDataEngineering.base p'))).
Proof.
  split.
  - intros p p' H.
    destruct (run_pipeline_steps _ H) as [s1 [H1 [H2 [H3 [_ [_ H4]]]]]].
    split; [exact H4|]; exists s1; repeat split; assumption.
  - intros p0 cs p p' Hinit Hcs H.
    destruct (__init___scaler Hinit) as [Hfit Hbase].
    pose proof (execs_scaler _ _ Hcs) as Hsc.
    destruct (run_pipeline_steps _ H) as [s1 [H1 [H2 [_ [_ [_ H4]]]]]].
    destruct (load_dataset_same_split _ Hbase H1) as [HX _].
    split; [congruence|].
    exists s1; repeat split; try assumption.
    rewrite HX, Hfit; simpl.
    rewrite <- HX, <- Hsc; exact H2.
Qed.
End ScalerInvariant.

(** ** Determinism and shape of the split *)

(** C2.  [load_dataset] stores the same four arrays (or raises the same
    exception) whatever instance it is called on, of either class, fresh
    from [__init__] or not, and whatever the state of the global random
    generator: the split is seeded with 42. *)
Theorem load_dataset_deterministic {F : Type} (np : NumpyRandom)
        (g1 g2 : RandomState np) (load_iris : Bunch F)
        {LogisticRegression : Classifier F} {StandardScaler : Scaler F}
        (s1 s2 : SimplePipeline.t (F := F))
        (p1 p2 : PipelineWithDataEngineering.t (F := F)) :
  split_of (SimplePipeline.load_dataset np g1 load_iris s1)
  = split_of (SimplePipeline.load_dataset np g2 load_iris s2) /\
  split_of (SimplePipeline.__init__ np g1 load_iris)
  = split_of (SimplePipeline.load_dataset np g2 load_iris s2) /\
  split_of (base_of (PipelineWithDataEngineering.load_dataset
                       np g1 load_iris p1))
  = split_of (base_of (PipelineWithDataEngineering.load_dataset
                         np g2 load_iris p2)) /\
  split_of (base_of (PipelineWithDataEngineering.load_dataset
                       np g1 load_iris p1))
  = split_of (SimplePipeline.load_dataset np g2 load_iris s2).
Proof.
  assert (Hbase : forall g (p : PipelineWithDataEngineering.t (F := F)),
             split_of (base_of (PipelineWithDataEngineering.load_dataset
                                  np g load_iris p))
             = split_of (SimplePipeline.load_dataset np g load_iris
                           (PipelineWithDataEngineering.base p))).
  { intros g p; unfold base_of, PipelineWithDataEngineering.load_dataset.
    destruct (SimplePipeline.load_dataset np g load_iris _); reflexivity. }
  assert (Hany : forall ga gb (sa sb : SimplePipeline.t (F := F)),
             split_of (SimplePipeline.load_dataset np ga load_iris sa)
             = split_of (SimplePipeline.load_dataset np gb load_iris sb)).
  { intros ga gb sa sb.
    rewrite (load_dataset_seeded np load_iris ga gb sa).
    apply load_dataset_split_of. }
  repeat split.
  - apply Hany.
  - apply Hany.
  - rewrite !Hbase; apply Hany.
  - rewrite Hbase; apply Hany.
Qed.

(** The seed is what makes the split deterministic: drawn from the global
    generator ([random_state=None]) it changes with the generator's state. *)
Lemma unseeded_split_depends_on_global_state :
  train_test_split Example.np_two_states true [0; 1; 2] [0; 1; 2]
                   (65 # 100) None
  <> train_test_split Example.np_two_states false [0; 1; 2] [0; 1; 2]
                      (65 # 100) None /\
  train_test_split Example.np_two_states true [0; 1; 2] [0; 1; 2]
                   (65 # 100) (Some 42%Z)
  = train_test_split Example.np_two_states false [0; 1; 2] [0; 1; 2]
                     (65 # 100) (Some 42%Z).
Proof. split; [discriminate | reflexivity]. Qed.

Lemma gather_app {A : Type} (a : list A) (i1 i2 : list nat) :
  gather a (i1 ++ i2) = gather a i1 ++ gather a i2.
Proof. apply flat_map_app. Qed.

Lemma gather_length {A : Type} (a : list A) (idx : list nat) :
  Forall (fun i => i < length a) idx -> length (gather a idx) = length idx.
Proof. intros H; apply (_safe_indexing_gather a H). Qed.

Lemma n_test_of_150 : n_test_of 150 = 98.
Proof. reflexivity. Qed.

(** C7.  On the 150 rows of the data set, [load_dataset] stores 98 test
    rows, which is 65% of 150 rounded up to whole rows ([test_size=0.65]),
    and the remaining 52 as training rows.  The two sets of row positions
    together are the positions 0..149, each once: the partition is
    exhaustive and disjoint, for the features and for the target alike. *)
Theorem load_dataset_partition {F : Type} (np : NumpyRandom)
        (g : RandomState np) (load_iris : Bunch F)
        {LogisticRegression : Classifier F}
        (self : SimplePipeline.t (F := F)) :
  length (data load_iris) = 150 ->
  length (target load_iris) = 150 ->
  exists (s' : SimplePipeline.t) (ind_train ind_test : list nat),
    SimplePipeline.load_dataset np g load_iris self = Ok s' /\
    length (SimplePipeline.X_test s') = 98 /\
    length (SimplePipeline.X_train s') = 52 /\
    length (SimplePipeline.y_test s') = 98 /\
    length (SimplePipeline.y_train s') = 52 /\
    65 * 150 <= 100 * length (SimplePipeline.X_test s') < 65 * 150 + 100 /\
    Permutation (ind_test ++ ind_train) (seq 0 150) /\
    SimplePipeline.X_train s' = gather (data load_iris) ind_train /\
    SimplePipeline.X_test s' = gather (data load_iris) ind_test /\
    SimplePipeline.y_train s' = gather (target load_iris) ind_train /\
    SimplePipeline.y_test s' = gather (target load_iris) ind_test /\
    Permutation (SimplePipeline.X_test s' ++ SimplePipeline.X_train s')
                (data load_iris) /\
    Permutation (SimplePipeline.y_test s' ++ SimplePipeline.y_train s')
                (target load_iris).
Proof.
  intros Hd Ht.
  assert (Hlen : length (data load_iris) = length (target load_iris))
    by congruence.
  assert (Hlt : n_test_of (length (data load_iris)) < length (data load_iris))
    by (rewrite Hd, n_test_of_150; lia).
  destruct (load_dataset_Ok np load_iris g self Hlen Hlt)
    as [s' [Hs [HXtr [HXte [Hytr [Hyte _]]]]]].
  destruct (iris_indices_partition np load_iris (Nat.lt_le_incl _ _ Hlt))
    as [Hperm [Hnte Hntr]].
  set (ind_train := fst (iris_indices np load_iris)) in *.
  set (ind_test := snd (iris_indices np load_iris)) in *.
  rewrite Hd, n_test_of_150 in Hnte, Hntr; simpl in Hntr.
  assert (Hb : Forall (fun i => i < 150) (ind_test ++ ind_train)).
  { apply Forall_forall; intros i Hi.
    apply (Permutation_in _ Hperm) in Hi; rewrite Hd in Hi.
    apply in_seq in Hi; lia. }
  apply Forall_app in Hb; destruct Hb as [Hbte Hbtr].
  assert (LXte : length (SimplePipeline.X_test s') = 98).
  { rewrite HXte, gather_length; [exact Hnte | now rewrite Hd]. }
  assert (LXtr : length (SimplePipeline.X_train s') = 52).
  { rewrite HXtr, gather_length; [exact Hntr | now rewrite Hd]. }
  exists s', ind_train, ind_test.
  split; [exact Hs|].
  split; [exact LXte|]. split; [exact LXtr|].
  split; [rewrite Hyte, gather_length; [exact Hnte | now rewrite Ht]|].
  split; [rewrite Hytr, gather_length; [exact Hntr | now rewrite Ht]|].
  split; [rewrite LXte; lia|].
  split; [now rewrite <- Hd|].
  repeat (split; [assumption|]).
  split.
  - rewrite HXte, HXtr, <- gather_app.
    rewrite (gather_Permutation (data load_iris) Hperm).
    now rewrite gather_seq.
  - rewrite Hyte, Hytr, <- gather_app.
    rewrite (gather_Permutation (target load_iris) Hperm).
    now rewrite Hlen, gather_seq.
Qed.

(** ** Accuracy *)

Lemma count_correct_cons (a b : label) (y p : list label) :
  count_correct (a :: y) (b :: p) =
  (if Z.eqb a b then 1 else 0) + count_correct y p.
Proof. unfold count_correct; simpl; destruct (Z.eqb a b); reflexivity. Qed.



Lemma Zpos_of_nat (n : nat) : 0 < n -> Z.pos (Pos.of_nat n) = Z.of_nat n.
Proof.
  destruct n as [|k]; [lia|]; intros _.
  rewrite <- Pos.of_nat_succ, Zpos_P_of_succ_nat; lia.
Qed.


Lemma accuracy_score_Ok (y p : list label) :
  length y = length p -> y <> [] ->
  accuracy_score y p = Ok (fraction (count_correct y p) (length y)).
Proof.
  intros Hlen Hy; unfold accuracy_score.
  rewrite Hlen, Nat.eqb_refl, <- Hlen; simpl.
  destruct y; [contradiction | reflexivity].
Qed.

Lemma accuracy_score_inv (y p : list label) (q : Q) :
  accuracy_score y p = Ok q ->
  length y = length p /\ y <> [] /\
  q = fraction (count_correct y p) (length y).
Proof.
  unfold accuracy_score.
  destruct (length y =? length p) eqn:E; simpl; [|discriminate].
  apply Nat.eqb_eq in E.
  destruct y as [|a y]; simpl; [discriminate|].
  intros H; injection H as <-.
  repeat split; [exact E | discriminate].
Qed.


(** Conversely, whatever [get_accuracy] returns is that fraction. *)
Lemma get_accuracy_inv {F : Type} {LogisticRegression : Classifier F}
      (self : SimplePipeline.t (F := F)) (q : Q) :
  SimplePipeline.get_accuracy self = Ok q ->
  exists m predictions,
    SimplePipeline.model self = Some m /\
    estimator_predict m (SimplePipeline.X_test self) = Ok predictions /\
    length (SimplePipeline.X_test self)
    = length (SimplePipeline.y_test self) /\
    q = fraction (count_correct (SimplePipeline.y_test self) predictions)
                 (length (SimplePipeline.y_test self)).
Proof.
  unfold SimplePipeline.get_accuracy, estimator_score.
  destruct (SimplePipeline.model self) as [m|]; [|discriminate].
  intros H; bind_inv H.
  destruct (accuracy_score_inv _ _ H) as [Hlen [_ Hq]].
  exists m, a; repeat split; try assumption.
  rewrite (estimator_predict_length _ _ Ha) in Hlen; congruence.
Qed.

(** ** Shape of the stored split *)

Lemma n_test_of_pos (n : nat) : 0 < n -> 0 < n_test_of n.
Proof.
  intros Hn; unfold n_test_of.
  set (x := ((65 # 100) * inject_Z (Z.of_nat n))%Q).
  assert (Hx : (0 < x)%Q).
  { unfold x, Qlt, Qmult, inject_Z; cbn [Qnum Qden]. lia. }
  pose proof (Qle_ceiling x) as Hc.
  assert (Hz : (0 < inject_Z (Qceiling x))%Q) by (eapply Qlt_le_trans; eauto).
  unfold Qlt in Hz; simpl in Hz. lia.
Qed.

Section SplitShape.
Context {F : Type}.
Variable np : NumpyRandom.
Variable np_random : RandomState np.
Variable load_iris : Bunch F.
Context {LogisticRegression : Classifier F}.

Lemma load_dataset_aligned (self s' : SimplePipeline.t) :
  SimplePipeline.load_dataset np np_random load_iris self = Ok s' ->
  aligned s'.
Proof.
  intros H.
  destruct (load_dataset_inv _ _ _ _ H) as [Hlen Hlt].
  destruct (load_dataset_Ok np load_iris np_random self Hlen Hlt)
    as [s'' [Hs [HXtr [HXte [Hytr [Hyte _]]]]]].
  rewrite H in Hs; injection Hs as <-.
  destruct (iris_indices_partition np load_iris (Nat.lt_le_incl _ _ Hlt))
    as [Hperm [Hnte Hntr]].
  assert (Hb : Forall (fun i => i < length (data load_iris))
                      (snd (iris_indices np load_iris) ++
                       fst (iris_indices np load_iris))).
  { apply Forall_forall; intros i Hi.
    apply (Permutation_in _ Hperm), in_seq in Hi; lia. }
  apply Forall_app in Hb; destruct Hb as [Hbte Hbtr].
  pose proof (n_test_of_pos (n := length (data load_iris))) as Hpos.
  assert (L1 : length (SimplePipeline.X_test s')
               = n_test_of (length (data load_iris)))
    by (rewrite HXte, gather_length; assumption).
  assert (L2 : length (SimplePipeline.y_test s')
               = n_test_of (length (data load_iris)))
    by (rewrite Hyte, gather_length; [assumption | now rewrite <- Hlen]).
  assert (L3 : length (SimplePipeline.X_train s')
               = length (data load_iris)
                 - n_test_of (length (data load_iris)))
    by (rewrite HXtr, gather_length; assumption).
  assert (L4 : length (SimplePipeline.y_train s')
               = length (data load_iris)
                 - n_test_of (length (data load_iris)))
    by (rewrite Hytr, gather_length; [assumption | now rewrite <- Hlen]).
  unfold aligned; repeat split; try congruence.
  - intros E; rewrite E in L2; simpl in L2; lia.
  - intros E; rewrite E in L4; simpl in L4; lia.
Qed.

Lemma train_split (s s' : SimplePipeline.t) :
  SimplePipeline.train s = Ok s' ->
  SimplePipeline.X_train s' = SimplePipeline.X_train s /\
  SimplePipeline.X_test s' = SimplePipeline.X_test s /\
  SimplePipeline.y_train s' = SimplePipeline.y_train s /\
  SimplePipeline.y_test s' = SimplePipeline.y_test s /\
  exists m, SimplePipeline.model s' = Some m /\
            estimator_fit (SimplePipeline.X_train s)
                          (SimplePipeline.y_train s) = Ok m.
Proof.
  unfold SimplePipeline.train; intros H.
  bind_inv H; injection H as <-; simpl.
  repeat split; exists a; split; [reflexivity | assumption].
Qed.

(** After [run_pipeline] the instance is trained on the split it holds. *)
Lemma run_pipeline_trained (s s' : SimplePipeline.t) :
  SimplePipeline.run_pipeline np np_random load_iris s = Ok s' ->
  aligned s' /\
  exists m, SimplePipeline.model s' = Some m /\
            estimator_fit (SimplePipeline.X_train s')
                          (SimplePipeline.y_train s') = Ok m.
Proof.
  unfold SimplePipeline.run_pipeline; intros H; bind_inv H.
  apply load_dataset_aligned in Ha.
  destruct (train_split _ H) as [E1 [E2 [E3 [E4 [m [Hm Hfit]]]]]].
  unfold aligned in *; rewrite E1, E2, E3, E4.
  split; [exact Ha|]; exists m; split; assumption.
Qed.
(** After [run_pipeline], [get_accuracy] returns the fraction of correctly
    labelled test rows whenever the model answers on the test rows. *)
Lemma run_pipeline_then_get_accuracy (s s' : SimplePipeline.t) :
  SimplePipeline.run_pipeline np np_random load_iris s = Ok s' ->
  exists m : estimator,
    SimplePipeline.model s' = Some m /\
    forall predictions : list label,
      estimator_predict m (SimplePipeline.X_test s') = Ok predictions ->
      SimplePipeline.get_accuracy s'
      = Ok (fraction (count_correct (SimplePipeline.y_test s') predictions)
                     (length (SimplePipeline.y_test s'))).
Proof.
  intros H.
  destruct (run_pipeline_trained s H) as [[A1 [_ [Hne _]]] [m [Hm _]]].
  exists m; split; [exact Hm|].
  intros predictions Hp.
  pose proof (estimator_predict_length _ _ Hp) as Hl.
  unfold SimplePipeline.get_accuracy, estimator_score.
  rewrite Hm, Hp; cbn [bind].
  apply accuracy_score_Ok; [congruence | exact Hne].
Qed.
End SplitShape.

(** ** The benchmark of [TestIrisPredictions] *)

Lemma count_correct_repeat (c : label) (y : list label) :
  count_correct y (repeat c (length y)) = count_label c y.
Proof.
  unfold count_label; induction y as [|a y IH]; [reflexivity|].
  cbn [length repeat]; rewrite count_correct_cons, IH; simpl.
  destruct (Z.eq_dec a c) as [->|Hne].
  - now rewrite Z.eqb_refl.
  - apply Z.eqb_neq in Hne; now rewrite Hne.
Qed.

Lemma count_label_le_most_common (c : label) (y : list label) :
  count_label c y <= most_common_count y.
Proof.
  unfold most_common_count.
  destruct (in_dec Z.eq_dec c y) as [Hin|Hnin].
  - pose proof (proj1 (list_max_le (map (fun c => count_label c y) y) _)
                      (Nat.le_refl _)) as Hall.
    rewrite Forall_forall in Hall; apply Hall.
    apply in_map_iff; exists c; split; [reflexivity | assumption].
  - unfold count_label.
    rewrite (proj1 (count_occ_not_In Z.eq_dec y c) Hnin); lia.
Qed.

Lemma most_common_count_le (k : nat) (y : list label) :
  (forall c, count_label c y <= k) -> most_common_count y <= k.
Proof.
  intros H; unfold most_common_count.
  apply list_max_le, Forall_forall; intros n Hn.
  apply in_map_iff in Hn; destruct Hn as [c [<- _]]; apply H.
Qed.

Section Benchmark.
Context {F : Type}.
Variable np : NumpyRandom.
Variable np_random : RandomState np.
Variable load_iris : Bunch F.
Context {LogisticRegression : Classifier F}.
Context {StandardScaler : Scaler F}.

Lemma setUp_inv (fx : TestIrisPredictions.t) :
  TestIrisPredictions.setUp np np_random load_iris = Ok fx ->
  (exists v1, SimplePipeline.run_pipeline np np_random load_iris v1
              = Ok (TestIrisPredictions.pipeline_v1 fx)) /\
  (exists v2, PipelineWithDataEngineering.__init__ np np_random load_iris
              = Ok v2 /\
              PipelineWithDataEngineering.run_pipeline
                np np_random load_iris v2
              = Ok (TestIrisPredictions.pipeline_v2 fx)) /\
  TestIrisPredictions.benchmark_predictions fx
  = repeat 1%Z (length (SimplePipeline.y_test
                          (TestIrisPredictions.pipeline_v1 fx))).
Proof.
  unfold TestIrisPredictions.setUp; intros H.
  bind_inv H; bind_inv H; bind_inv H; bind_inv H; injection H as <-; simpl.
  split; [exists a; assumption|].
  split; [exists a0; split; assumption | reflexivity].
Qed.

(** The accuracy of the benchmark is the fraction of test rows labelled 1. *)
Lemma benchmark_accuracy_Ok (fx : TestIrisPredictions.t) :
  TestIrisPredictions.setUp np np_random load_iris = Ok fx ->
  TestIrisPredictions.benchmark_accuracy fx
  = Ok (fraction
          (count_label 1%Z (SimplePipeline.y_test
                              (TestIrisPredictions.pipeline_v1 fx)))
          (length (SimplePipeline.y_test
                     (TestIrisPredictions.pipeline_v1 fx)))).
Proof.
  intros H.
  destruct (setUp_inv H) as [[v1 Hv1] [_ Hb]].
  destruct (run_pipeline_trained _ _ _ _ Hv1) as [[_ [_ [Hne _]]] _].
  unfold TestIrisPredictions.benchmark_accuracy; rewrite Hb.
  rewrite accuracy_score_Ok, count_correct_repeat;
    [reflexivity | now rewrite repeat_length | assumption].
Qed.

(** C6, as the code has it.  The benchmark predicts label 1 for every test
    row, so its accuracy is the fraction of test rows labelled 1.  That is
    at most the fraction of the most common label of the test split, and
    equal to it exactly when no label is more common there than 1. *)
Theorem benchmark_accuracy_is_fraction_of_label_1
        (fx : TestIrisPredictions.t) :
  TestIrisPredictions.setUp np np_random load_iris = Ok fx ->
  let y := SimplePipeline.y_test (TestIrisPredictions.pipeline_v1 fx) in
  TestIrisPredictions.benchmark_accuracy fx
  = Ok (fraction (count_label 1%Z y) (length y)) /\
  count_label 1%Z y <= most_common_count y /\
  (count_label 1%Z y = most_common_count y <->
   forall c : label, count_label c y <= count_label 1%Z y).
Proof.
  intros H y.
  split; [|split].
  - exact (benchmark_accuracy_Ok H).
  - apply count_label_le_most_common.
  - split.
    + intros E c; rewrite E; apply count_label_le_most_common.
    + intros Hall; apply Nat.le_antisymm.
      * apply count_label_le_most_common.
      * now apply most_common_count_le.
Qed.
Lemma Qlt_bool_fraction (a b n : nat) :
  0 < n ->
  TestIrisPredictions.Qlt_bool (fraction a n) (fraction b n) = (a <? b).
Proof.
  intros Hn; unfold TestIrisPredictions.Qlt_bool, Qle_bool, fraction; simpl.
  rewrite (Zpos_of_nat Hn).
  destruct (Nat.ltb_spec a b) as [H|H];
    destruct (Z.leb_spec (Z.of_nat b * Z.of_nat n) (Z.of_nat a * Z.of_nat n))
    as [H'|H']; try reflexivity; nia.
Qed.

(** X11.  When the benchmark test of the notebook holds: exactly when the
    model labels more test rows correctly than there are test rows
    labelled 1. *)
Lemma benchmark_test_iff (fx : TestIrisPredictions.t)
      (predictions : list label) :
  TestIrisPredictions.setUp np np_random load_iris = Ok fx ->
  let v1 := TestIrisPredictions.pipeline_v1 fx in
  let y := SimplePipeline.y_test v1 in
  SimplePipeline.predict v1 (SimplePipeline.X_test v1) = Ok predictions ->
  TestIrisPredictions.test_accuracy_higher_than_benchmark fx
  = Ok (count_label 1%Z y <? count_correct y predictions).
Proof.
  intros H v1 y Hp.
  pose proof (benchmark_accuracy_Ok H) as Hb.
  destruct (setUp_inv H) as [[v0 Hv0] _].
  destruct (run_pipeline_trained _ _ _ _ Hv0)
    as [[A1 [_ [Hne _]]] [m [Hm _]]].
  fold v1 in A1, Hne, Hm; fold y in A1, Hne; fold v1 y in Hb.
  unfold SimplePipeline.predict in Hp; rewrite Hm in Hp.
  pose proof (estimator_predict_length _ _ Hp) as Hl.
  unfold TestIrisPredictions.test_accuracy_higher_than_benchmark,
    TestIrisPredictions.actual_accuracy.
  fold v1; rewrite Hb; cbn [bind].
  unfold SimplePipeline.predict; rewrite Hm, Hp; cbn [bind]; fold y.
  rewrite accuracy_score_Ok by congruence; cbn [bind].
  rewrite Qlt_bool_fraction; [reflexivity|].
  destruct y; [contradiction | simpl; lia].
Qed.
(** X12.  With [predict] of the first exercise the model is the benchmark,
    and the benchmark test fails, as the exercise intends. *)
Lemma constant_predict_fails_benchmark_test (fx : TestIrisPredictions.t) :
  TestIrisPredictions.setUp np np_random load_iris = Ok fx ->
  TestIrisPredictions.test_accuracy_higher_than_benchmark_constant fx
  = Ok false.
Proof.
  intros H.
  pose proof (benchmark_accuracy_Ok H) as Hb.
  destruct (setUp_inv H) as [[v0 Hv0] [_ Hbp]].
  destruct (run_pipeline_trained _ _ _ _ Hv0) as [[A1 _] _].
  unfold TestIrisPredictions.test_accuracy_higher_than_benchmark_constant,
    SimplePipeline.predict_constant.
  rewrite Hb; cbn [bind]; rewrite A1, <- Hbp.
  fold (TestIrisPredictions.benchmark_accuracy fx); rewrite Hb; cbn [bind].
  unfold TestIrisPredictions.Qlt_bool; f_equal.
  apply negb_false_iff, Qle_bool_iff, Qle_refl.
Qed.
End Benchmark.

(** With three classes, a label carried by 32 of 98 rows is not the most
    common one: the run recorded in the notebook prints a benchmark
    accuracy of 32/98. *)
Lemma label_1_not_most_common_at_32_of_98 (y : list label) :
  length y = 98 ->
  Forall (fun c => c = 0 \/ c = 1 \/ c = 2)%Z y ->
  count_label 1%Z y = 32 ->
  count_label 1%Z y < most_common_count y.
Proof.
  intros Hlen Hcls H1.
  assert (Hsum : count_label 0%Z y + count_label 1%Z y + count_label 2%Z y
                 = length y).
  { clear Hlen H1; unfold count_label.
    induction Hcls as [|c y Hc _ IH]; [reflexivity|].
    destruct Hc as [Hc|[Hc|Hc]]; subst c; simpl; lia. }
  pose proof (count_label_le_most_common 0%Z y).
  pose proof (count_label_le_most_common 2%Z y).
  lia.
Qed.

(** ** Comparing the two versions *)

Section Versions.
Context {F : Type}.
Variable np : NumpyRandom.
Variable np_random : RandomState np.
Variable load_iris : Bunch F.
Context {LogisticRegression : Classifier F}.
Context {StandardScaler : Scaler F}.

(** Without the call of [apply_scaler], [run_pipeline] of the subclass
    leaves its instance with the very attributes that [run_pipeline] of
    [SimplePipeline] leaves. *)
Lemma setUp_unscaled_base (fx : TestIrisPredictions.t) :
  TestIrisPredictions.setUp_unscaled np np_random load_iris = Ok fx ->
  PipelineWithDataEngineering.base (TestIrisPredictions.pipeline_v2 fx)
  = TestIrisPredictions.pipeline_v1 fx.
Proof.
  unfold TestIrisPredictions.setUp_unscaled; intros H.
  bind_inv H; bind_inv H; bind_inv H; bind_inv H; injection H as <-.
  cbn [TestIrisPredictions.pipeline_v1 TestIrisPredictions.pipeline_v2].
  destruct (__init___scaler _ _ _ Ha0) as [_ Hbase].
  assert (E : PipelineWithDataEngineering.base a0 = a) by congruence.
  unfold PipelineWithDataEngineering.run_pipeline_unscaled,
    PipelineWithDataEngineering.load_dataset,
    PipelineWithDataEngineering.train in Ha2.
  unfold SimplePipeline.run_pipeline in Ha1.
  rewrite E in Ha2.
  destruct (SimplePipeline.load_dataset np np_random load_iris a)
    as [s1|e]; [|discriminate].
  cbn [bind PipelineWithDataEngineering.base
       PipelineWithDataEngineering.with_base] in Ha1, Ha2.
  rewrite Ha1 in Ha2; cbn [bind] in Ha2.
  injection Ha2 as <-; reflexivity.
Qed.

(** X13.  With the classes of the last exercise the two accuracies are
    one and the comparison of the notebook holds. *)
Lemma unscaled_v2_accuracy_equals_v1 (fx : TestIrisPredictions.t) :
  TestIrisPredictions.setUp_unscaled np np_random load_iris = Ok fx ->
  PipelineWithDataEngineering.get_accuracy
    (TestIrisPredictions.pipeline_v2 fx)
  = SimplePipeline.get_accuracy (TestIrisPredictions.pipeline_v1 fx) /\
  forall q : Q,
    SimplePipeline.get_accuracy (TestIrisPredictions.pipeline_v1 fx) = Ok q ->
    TestIrisPredictions.test_accuracy_compared_to_previous_version fx
    = Ok true.
Proof.
  intros H; pose proof (setUp_unscaled_base H) as E.
  assert (Hacc : PipelineWithDataEngineering.get_accuracy
                   (TestIrisPredictions.pipeline_v2 fx)
                 = SimplePipeline.get_accuracy
                     (TestIrisPredictions.pipeline_v1 fx)).
  { unfold PipelineWithDataEngineering.get_accuracy; now rewrite E. }
  split; [exact Hacc|].
  intros q Hq.
  unfold TestIrisPredictions.test_accuracy_compared_to_previous_version.
  rewrite Hacc, Hq; cbn [bind]; f_equal.
  apply Qle_bool_iff, Qle_refl.
Qed.
End Versions.

(** ** Standardisation over the reals *)

Section Standardise.
Import StandardScaler.
Local Open Scope R_scope.

Lemma Rsum_map_affine (m s : R) (l : list R) :
  Rsum (map (fun x => (x - m) / s) l) = (Rsum l - INR (length l) * m) / s.
Proof.
  induction l as [|x l IH].
  - simpl; unfold Rdiv; ring.
  - cbn [map Rsum fold_right length]; fold (Rsum (map (fun x => (x - m) / s) l)).
    fold (Rsum l); rewrite IH, S_INR; unfold Rdiv; ring.
Qed.

Lemma Rsum_map_div (g : R -> R) (c : R) (l : list R) :
  Rsum (map (fun x => g x / c) l) = Rsum (map g l) / c.
Proof.
  induction l as [|x l IH].
  - simpl; unfold Rdiv; ring.
  - cbn [map Rsum fold_right]; fold (Rsum (map (fun x => g x / c) l)).
    fold (Rsum (map g l)); rewrite IH; unfold Rdiv; ring.
Qed.

Lemma Rsum_nonneg (l : list R) : Forall (fun x => 0 <= x) l -> 0 <= Rsum l.
Proof.
  induction 1 as [|x l Hx _ IH]; simpl; [lra|].
  fold (Rsum l); lra.
Qed.

Lemma INR_length_pos {A : Type} (l : list A) : l <> [] -> 0 < INR (length l).
Proof.
  intros H; apply lt_0_INR.
  destruct l; [contradiction | simpl; lia].
Qed.

Lemma mean_affine (m s : R) (l : list R) :
  l <> [] -> s <> 0 ->
  mean (map (fun x => (x - m) / s) l) = (mean l - m) / s.
Proof.
  intros Hl Hs; unfold mean.
  rewrite length_map, Rsum_map_affine.
  pose proof (INR_length_pos Hl); field; split; lra.
Qed.

Lemma mean_map_div (g : R -> R) (c : R) (l : list R) :
  mean (map (fun x => g x / c) l) = mean (map g l) / c.
Proof.
  unfold mean; rewrite !length_map, Rsum_map_div; unfold Rdiv; ring.
Qed.

Lemma var_affine (m s : R) (l : list R) :
  l <> [] -> s <> 0 ->
  var (map (fun x => (x - m) / s) l) = var l / (s * s).
Proof.
  intros Hl Hs; unfold var at 1.
  rewrite (mean_affine m Hl Hs), map_map.
  rewrite (map_ext _ (fun x => ((x - mean l) * (x - mean l)) / (s * s))).
  - rewrite mean_map_div; reflexivity.
  - intros x; field; exact Hs.
Qed.

Lemma var_nonneg (l : list R) : 0 <= var l.
Proof.
  unfold var, mean; rewrite length_map.
  destruct l as [|x l].
  - simpl; unfold Rdiv; rewrite Rmult_0_l; lra.
  - apply Rmult_le_pos.
    + apply Rsum_nonneg, Forall_forall; intros y Hy.
      apply in_map_iff in Hy; destruct Hy as [z [<- _]].
      exact (Rle_0_sqr (z - mean (x :: l))).
    + left; apply Rinv_0_lt_compat, INR_length_pos; discriminate.
Qed.

Lemma std_sqr (l : list R) : std l * std l = var l.
Proof. unfold std; apply sqrt_sqrt, var_nonneg. Qed.

Lemma std_pos (l : list R) : var l <> 0 -> 0 < std l.
Proof.
  intros H; unfold std; apply sqrt_lt_R0.
  pose proof (var_nonneg l); lra.
Qed.

(** The scale of a feature is never zero. *)
Lemma _handle_zeros_in_scale_neq_0 (l : list R) :
  _handle_zeros_in_scale (std l) <> 0.
Proof.
  unfold _handle_zeros_in_scale.
  destruct (Req_dec_T (std l) 0) as [E|NE]; [lra | exact NE].
Qed.

Lemma _handle_zeros_in_scale_std (l : list R) :
  var l <> 0 -> _handle_zeros_in_scale (std l) = std l.
Proof.
  intros H; pose proof (std_pos H); unfold _handle_zeros_in_scale.
  destruct (Req_dec_T (std l) 0) as [E|NE]; [lra | reflexivity].
Qed.

(** A feature that is not constant, centred by its mean and divided by
    its standard deviation, has mean 0 and standard deviation 1. *)
Lemma standardised_feature (l : list R) :
  l <> [] -> var l <> 0 ->
  let l' := map (fun x => (x - mean l) / std l) l in
  mean l' = 0 /\ var l' = 1 /\ std l' = 1.
Proof.
  intros Hl Hv l'.
  pose proof (std_pos Hv) as Hs.
  assert (Hs0 : std l <> 0) by lra.
  assert (Hm : mean l' = 0).
  { unfold l'; rewrite mean_affine by assumption; field; exact Hs0. }
  assert (Hv' : var l' = 1).
  { unfold l'; rewrite var_affine by assumption.
    rewrite std_sqr; field; exact Hv. }
  repeat split; try assumption.
  unfold std at 1; rewrite Hv'; apply sqrt_1.
Qed.

(** Transformed once more with the same parameters, the feature has mean
    [- m / s] and standard deviation [1 / s], for [m] and [s] the mean and
    standard deviation it had at first. *)
Lemma restandardised_feature (l : list R) :
  l <> [] -> var l <> 0 ->
  let l' := map (fun x => (x - mean l) / std l) l in
  let l'' := map (fun x => (x - mean l) / std l) l' in
  mean l'' = - mean l / std l /\ std l'' = 1 / std l.
Proof.
  intros Hl Hv l' l''.
  pose proof (std_pos Hv) as Hs.
  assert (Hs0 : std l <> 0) by lra.
  destruct (standardised_feature Hl Hv) as [Hm [Hv' _]]; fold l' in Hm, Hv'.
  assert (Hl' : l' <> []).
  { unfold l'; destruct l; [contradiction | discriminate]. }
  split.
  - unfold l''; rewrite mean_affine, Hm by assumption; field; exact Hs0.
  - unfold std at 1, l''; rewrite var_affine, Hv' by assumption.
    replace (1 / (std l * std l)) with ((1 / std l) * (1 / std l))
      by (field; exact Hs0).
    apply sqrt_square.
    unfold Rdiv; rewrite Rmult_1_l; left; now apply Rinv_0_lt_compat.
Qed.
(** Without centring ([with_mean=False]) the feature keeps its mean,
    divided by the scale; its standard deviation is 1 all the same. *)
Lemma scaled_feature_without_centring (l : list R) :
  l <> [] -> var l <> 0 ->
  let l' := map (fun x => x / std l) l in
  mean l' = mean l / std l /\ std l' = 1.
Proof.
  intros Hl Hv l'.
  pose proof (std_pos Hv) as Hs.
  assert (Hs0 : std l <> 0) by lra.
  assert (E : l' = map (fun x => (x - 0) / std l) l).
  { unfold l'; apply map_ext; intros x; unfold Rdiv; ring. }
  split.
  - rewrite E, mean_affine by assumption; unfold Rdiv; ring.
  - unfold std at 1; rewrite E, var_affine, std_sqr by assumption.
    replace (var l / var l) with 1 by (field; exact Hv).
    apply sqrt_1.
Qed.
End Standardise.

(** ** [fit] and [transform] on arrays *)

Section ScalerOnArrays.
Import StandardScaler.
Local Open Scope R_scope.

Lemma nth_map_seq (f : nat -> R) (d j : nat) :
  (j < d)%nat -> nth j (map f (seq 0 d)) 0 = f j.
Proof.
  intros Hj.
  rewrite (nth_indep _ 0 (f 0%nat)) by (rewrite length_map, length_seq; lia).
  rewrite map_nth, seq_nth by lia; reflexivity.
Qed.

Lemma fit_inv (wm : bool) (X : matrix R) (p : params) :
  fit wm X = Ok p ->
  X <> [] /\ with_mean p = wm /\
  exists d : nat,
    Forall (fun row => length row = d) X /\
    length (mean_ p) = d /\ length (scale_ p) = d /\
    forall j : nat, (j < d)%nat ->
      nth j (mean_ p) 0 = mean (column j X) /\
      nth j (scale_ p) 0 = _handle_zeros_in_scale (std (column j X)).
Proof.
  unfold fit; destruct X as [|row0 X]; [discriminate|].
  destruct (forallb _ _) eqn:Hall; [|discriminate].
  intros H; injection H as <-; cbn [with_mean mean_ scale_].
  split; [discriminate|]; split; [reflexivity|].
  exists (length row0); repeat split.
  - apply Forall_forall; intros row Hrow.
    rewrite forallb_forall in Hall.
    now apply Nat.eqb_eq, Hall.
  - now rewrite length_map, length_seq.
  - now rewrite length_map, length_seq.
  - now apply nth_map_seq.
  - now apply (nth_map_seq
                 (fun j => _handle_zeros_in_scale (std (column j (row0 :: X))))).
Qed.

Lemma fit_Ok (wm : bool) (X : matrix R) (d : nat) :
  X <> [] -> Forall (fun row => length row = d) X ->
  exists p, fit wm X = Ok p.
Proof.
  intros HX Hall; unfold fit; destruct X as [|row0 X]; [contradiction|].
  assert (E : forallb (fun row => Nat.eqb (length row) (length row0))
                      (row0 :: X) = true).
  { apply forallb_forall; intros row Hrow; apply Nat.eqb_eq.
    rewrite Forall_forall in Hall.
    rewrite (Hall row Hrow), (Hall row0); [reflexivity | now left]. }
  rewrite E; eexists; reflexivity.
Qed.

Lemma transform_row_nth (p : params) (row row' : list R) (j : nat) :
  transform_row p row = Ok row' ->
  length (mean_ p) = length (scale_ p) ->
  (j < length (mean_ p))%nat ->
  nth j row' 0
  = transform_entry p (nth j row 0) (nth j (mean_ p) 0, nth j (scale_ p) 0).
Proof.
  unfold transform_row.
  destruct (Nat.eqb _ _) eqn:E; [|discriminate].
  apply Nat.eqb_eq in E.
  intros H Hlen Hj; injection H as <-.
  set (f := fun xms : R * (R * R) => transform_entry p (fst xms) (snd xms)).
  rewrite (nth_indep _ 0 (f (0, (0, 0))))
    by (rewrite length_map, !length_combine; lia).
  rewrite map_nth; unfold f.
  rewrite combine_nth by (rewrite length_combine; lia).
  rewrite combine_nth by assumption.
  reflexivity.
Qed.

Lemma mapM_transform_row_column (p : params) (X X' : matrix R) (j : nat) :
  mapM (transform_row p) X = Ok X' ->
  length (mean_ p) = length (scale_ p) ->
  (j < length (mean_ p))%nat ->
  column j X'
  = map (fun x => transform_entry p x
                    (nth j (mean_ p) 0, nth j (scale_ p) 0))
        (column j X).
Proof.
  intros H Hlen Hj; revert X' H.
  induction X as [|row X IH]; simpl; intros X' H.
  - injection H as <-; reflexivity.
  - bind_inv H; bind_inv H; injection H as <-.
    cbn [column map]; f_equal.
    + now apply transform_row_nth.
    + now apply IH.
Qed.

(** Feature by feature, [transform] is the entry-wise map. *)
Lemma transform_column (p : params) (X X' : matrix R) (j : nat) :
  transform p X = Ok X' ->
  length (mean_ p) = length (scale_ p) ->
  (j < length (mean_ p))%nat ->
  column j X'
  = map (fun x => transform_entry p x
                    (nth j (mean_ p) 0, nth j (scale_ p) 0))
        (column j X).
Proof.
  destruct X as [|row X]; [discriminate|].
  apply mapM_transform_row_column.
Qed.

Lemma transform_Ok (p : params) (X : matrix R) :
  X <> [] ->
  Forall (fun row => length row = length (mean_ p)) X ->
  exists X', transform p X = Ok X'.
Proof.
  intros HX Hall.
  assert (H : exists X', mapM (transform_row p) X = Ok X').
  { clear HX; induction Hall as [|row X Hrow _ [X' IH]]; simpl.
    - eexists; reflexivity.
    - unfold transform_row at 1.
      rewrite Hrow, Nat.eqb_refl; simpl; rewrite IH; simpl.
      eexists; reflexivity. }
  destruct X; [contradiction | exact H].
Qed.

Lemma column_nil_iff (j : nat) (X : matrix R) : column j X = [] <-> X = [].
Proof.
  unfold column; split; intros H.
  - destruct X; [reflexivity | discriminate].
  - now subst.
Qed.

(** The scaler of the data-engineering exercise, [with_mean=False]: the
    transformed feature has standard deviation 1 but keeps a mean, which
    is 0 only for a feature of mean 0. *)
Lemma fit_transform_without_mean (X X' : matrix R) (p : params) (j d : nat) :
  fit false X = Ok p -> transform p X = Ok X' ->
  length (mean_ p) = d -> (j < d)%nat ->
  var (column j X) <> 0 ->
  mean (column j X') = mean (column j X) / std (column j X) /\
  std (column j X') = 1.
Proof.
  intros Hfit Htr Hd Hj Hv.
  destruct (fit_inv _ _ Hfit) as [HX [Hwm [d' [_ [Hm [Hs Hnth]]]]]].
  assert (Hj' : (j < d')%nat) by lia.
  destruct (Hnth j Hj') as [_ Hsj].
  rewrite (_handle_zeros_in_scale_std Hv) in Hsj.
  rewrite (@transform_column p X X' j Htr) by (try congruence; lia).
  unfold transform_entry; rewrite Hwm, Hsj; cbn [fst snd].
  assert (Hc : column j X <> []) by now rewrite column_nil_iff.
  exact (scaled_feature_without_centring Hc Hv).
Qed.
End ScalerOnArrays.

(** ** Scaling the stored split *)

Section Scaling.
Import StandardScaler.
Variable np : NumpyRandom.
Variable np_random : RandomState np.
Variable load_iris : Bunch R.
Context {LogisticRegression : Classifier R}.
Local Open Scope R_scope.

Local Abbreviation PWDE_t := (PipelineWithDataEngineering.t (F := R)).

Lemma gather_rows_width (d : nat) (X : matrix R) (idx : list nat) :
  Forall (fun row => length row = d) X ->
  Forall (fun row => length row = d) (gather X idx).
Proof.
  intros H; apply Forall_forall; intros row Hrow.
  apply gather_In in Hrow; rewrite Forall_forall in H; now apply H.
Qed.

Lemma nonempty_of_length {A B : Type} (l : list A) (l' : list B) :
  length l = length l' -> l' <> [] -> l <> [].
Proof. intros H Hl' ->; destruct l'; [contradiction | discriminate]. Qed.



Lemma apply_scaler_inv (p p' : PWDE_t) :
  PipelineWithDataEngineering.apply_scaler p = Ok p' ->
  transform (PipelineWithDataEngineering.scaler p)
            (SimplePipeline.X_train (PipelineWithDataEngineering.base p))
  = Ok (SimplePipeline.X_train (PipelineWithDataEngineering.base p')) /\
  transform (PipelineWithDataEngineering.scaler p)
            (SimplePipeline.X_test (PipelineWithDataEngineering.base p))
  = Ok (SimplePipeline.X_test (PipelineWithDataEngineering.base p')) /\
  PipelineWithDataEngineering.scaler p'
  = PipelineWithDataEngineering.scaler p.
Proof.
  unfold PipelineWithDataEngineering.apply_scaler; intros H.
  bind_inv H; bind_inv H; injection H as <-; simpl.
  repeat split; assumption.
Qed.

(** [transform] applied twice with the parameters fitted on the array. *)
Lemma fit_transform_twice (X X' X'' : matrix R) (p : params) (j : nat) :
  fit true X = Ok p -> transform p X = Ok X' -> transform p X' = Ok X'' ->
  (j < length (mean_ p))%nat ->
  var (column j X) <> 0 ->
  let m := nth j (mean_ p) 0 in
  let s := nth j (scale_ p) 0 in
  0 < s /\
  mean (column j X') = 0 /\ std (column j X') = 1 /\
  mean (column j X'') = - m / s /\ std (column j X'') = 1 / s.
Proof.
  intros Hfit Htr Htr2 Hj Hv m s.
  destruct (fit_inv _ _ Hfit) as [HX [Hwm [d [_ [Hm [Hs Hnth]]]]]].
  assert (Hj' : (j < d)%nat) by lia.
  destruct (Hnth j Hj') as [Hmj Hsj].
  rewrite (_handle_zeros_in_scale_std Hv) in Hsj.
  fold m in Hmj; fold s in Hsj.
  assert (Hlen : length (mean_ p) = length (scale_ p)) by congruence.
  pose proof (@transform_column p X X' j Htr Hlen Hj) as C1.
  pose proof (@transform_column p X' X'' j Htr2 Hlen Hj) as C2.
  unfold transform_entry in C1, C2; rewrite Hwm in C1, C2.
  cbn [fst snd] in C1, C2; fold m s in C1, C2.
  assert (Hc : column j X <> []) by now rewrite column_nil_iff.
  destruct (standardised_feature Hc Hv) as [M1 [_ S1]].
  destruct (restandardised_feature Hc Hv) as [M2 S2].
  rewrite Hmj, Hsj in C1, C2 |- *.
  rewrite C2, C1.
  split; [now apply std_pos|].
  repeat split; assumption.
Qed.

(** C9.  Each call of [apply_scaler] replaces the stored arrays by their
    transform under the same fitted parameters, so a second call
    transforms data that is already scaled.  On an instance whose scaler
    was fitted on the training data it holds (as [__init__] leaves it),
    a feature that is not constant has mean 0 and standard deviation 1
    after the first call and mean [- m / s] and standard deviation [1 / s]
    after the second, for [m] and [s] its fitted mean and scale: the
    property of the first call survives exactly when [m = 0] and [s = 1],
    and otherwise the second call changes the training data. *)
Theorem apply_scaler_not_idempotent (p0 p1 p2 : PWDE_t) :
  fit true (SimplePipeline.X_train (PipelineWithDataEngineering.base p0))
  = Ok (PipelineWithDataEngineering.scaler p0) ->
  PipelineWithDataEngineering.apply_scaler p0 = Ok p1 ->
  PipelineWithDataEngineering.apply_scaler p1 = Ok p2 ->
  let sc := PipelineWithDataEngineering.scaler p0 in
  let X_train0 := SimplePipeline.X_train (PipelineWithDataEngineering.base p0) in
  let X_train1 := SimplePipeline.X_train (PipelineWithDataEngineering.base p1) in
  let X_train2 := SimplePipeline.X_train (PipelineWithDataEngineering.base p2) in
  PipelineWithDataEngineering.scaler p2 = sc /\
  transform sc X_train0 = Ok X_train1 /\
  transform sc X_train1 = Ok X_train2 /\
  transform sc (SimplePipeline.X_test (PipelineWithDataEngineering.base p1))
  = Ok (SimplePipeline.X_test (PipelineWithDataEngineering.base p2)) /\
  forall j : nat,
    (j < length (mean_ sc))%nat ->
    var (column j X_train0) <> 0 ->
    let m := nth j (mean_ sc) 0 in
    let s := nth j (scale_ sc) 0 in
    mean (column j X_train1) = 0 /\ std (column j X_train1) = 1 /\
    mean (column j X_train2) = - m / s /\
    std (column j X_train2) = 1 / s /\
    ((mean (column j X_train2) = 0 /\ std (column j X_train2) = 1)
     <-> (m = 0 /\ s = 1)) /\
    (~ (m = 0 /\ s = 1) -> X_train2 <> X_train1).
Proof.
  intros Hfit H1 H2 sc X_train0 X_train1 X_train2.
  destruct (apply_scaler_inv _ H1) as [T1 [_ E1]].
  destruct (apply_scaler_inv _ H2) as [T2 [T2' E2]].
  rewrite E1 in T2, T2', E2.
  fold sc X_train0 X_train1 in T1; fold sc X_train1 X_train2 in T2.
  fold sc in T2', E2.
  repeat (split; [assumption|]).
  intros j Hj Hv m s.
  destruct (@fit_transform_twice _ _ _ _ j Hfit T1 T2 Hj Hv)
    as [Hs [M1 [S1 [M2 S2]]]].
  fold sc m s in Hs, M2, S2.
  assert (Hiff : (mean (column j X_train2) = 0 /\ std (column j X_train2) = 1)
                 <-> (m = 0 /\ s = 1)).
  { rewrite M2, S2; split.
    - intros [A B].
      assert (Hm0 : m = 0).
      { apply (Rmult_eq_compat_r s) in A.
        unfold Rdiv in A; rewrite Rmult_assoc, Rinv_l, Rmult_0_l in A; lra. }
      assert (Hs1 : s = 1).
      { apply (Rmult_eq_compat_r s) in B.
        unfold Rdiv in B; rewrite Rmult_assoc, Rinv_l in B; lra. }
      split; assumption.
    - intros [-> ->]; split; field. }
  repeat (split; [assumption|]).
  intros Hne E; apply Hne, Hiff.
  rewrite E; split; assumption.
Qed.
End Scaling.

(** ** The assertions of [TestIrisDataEngineering] *)

Section WholeArray.
Import StandardScaler.
Local Open Scope R_scope.

Lemma Rsum_app (l1 l2 : list R) : Rsum (l1 ++ l2) = Rsum l1 + Rsum l2.
Proof.
  induction l1 as [|x l1 IH]; simpl; [ring|].
  fold (Rsum (l1 ++ l2)); fold (Rsum l1); rewrite IH; ring.
Qed.

Lemma Rsum_concat (X : matrix R) : Rsum (concat X) = Rsum (map Rsum X).
Proof.
  induction X as [|row X IH]; [reflexivity|].
  cbn [concat map]; rewrite Rsum_app, IH; reflexivity.
Qed.

Lemma Rsum_map_plus {A : Type} (f g : A -> R) (l : list A) :
  Rsum (map (fun a => f a + g a) l) = Rsum (map f l) + Rsum (map g l).
Proof.
  induction l as [|a l IH]; simpl; [ring|].
  fold (Rsum (map (fun a => f a + g a) l)).
  fold (Rsum (map f l)); fold (Rsum (map g l)); rewrite IH; ring.
Qed.

Lemma Rsum_map_const {A : Type} (c : R) (l : list A) :
  Rsum (map (fun _ => c) l) = INR (length l) * c.
Proof.
  induction l as [|a l IH]; [simpl; ring|].
  cbn [map length]; rewrite S_INR; simpl.
  fold (Rsum (map (fun _ => c) l)); rewrite IH; ring.
Qed.

Lemma map_nth_seq (row : list R) :
  map (fun j => nth j row 0) (seq 0 (length row)) = row.
Proof.
  induction row as [|x row IH]; [reflexivity|].
  cbn [length seq map nth]; f_equal.
  rewrite <- seq_shift, map_map; exact IH.
Qed.

(** The entries of a rectangular array add up the same by rows and by
    columns. *)
Lemma Rsum_rows_columns (d : nat) (X : matrix R) :
  Forall (fun row => length row = d) X ->
  Rsum (concat X) = Rsum (map (fun j => Rsum (column j X)) (seq 0 d)).
Proof.
  intros H; rewrite Rsum_concat.
  induction H as [|row X Hrow _ IH].
  - simpl; rewrite Rsum_map_const; ring.
  - cbn [map Rsum fold_right]; fold (Rsum (map Rsum X)); rewrite IH.
    rewrite (map_ext (fun j => Rsum (column j (row :: X)))
                     (fun j => nth j row 0 + Rsum (column j X)))
      by reflexivity.
    rewrite Rsum_map_plus; f_equal.
    rewrite <- Hrow, map_nth_seq; reflexivity.
Qed.

Lemma length_concat_rectangular (d : nat) (X : matrix R) :
  Forall (fun row => length row = d) X ->
  length (concat X) = (length X * d)%nat.
Proof.
  induction 1 as [|row X Hrow _ IH]; [reflexivity|].
  cbn [concat length]; rewrite length_app, IH, Hrow; lia.
Qed.


Lemma Rsum_of_mean (l : list R) : l <> [] -> Rsum l = INR (length l) * mean l.
Proof.
  intros H; pose proof (INR_length_pos H); unfold mean; field; lra.
Qed.

End WholeArray.

Section DataEngineeringTests.
Import StandardScaler.
Variable np : NumpyRandom.
Variable np_random : RandomState np.
Variable load_iris : Bunch R.
Context {LogisticRegression : Classifier R}.
Local Open Scope R_scope.

Lemma transform_row_length (p : params) (row row' : list R) :
  length (mean_ p) = length (scale_ p) ->
  transform_row p row = Ok row' -> length row' = length (mean_ p).
Proof.
  unfold transform_row; intros Hlen.
  destruct (Nat.eqb _ _) eqn:E; [|discriminate].
  apply Nat.eqb_eq in E.
  intros H; injection H as <-.
  rewrite length_map, !length_combine; lia.
Qed.

Lemma transform_width (p : params) (X X' : matrix R) :
  length (mean_ p) = length (scale_ p) ->
  transform p X = Ok X' ->
  X' <> [] /\ Forall (fun row => length row = length (mean_ p)) X'.
Proof.
  intros Hlen H; split.
  - destruct X as [|row X]; [discriminate|].
    apply mapM_length in H; intros ->; discriminate.
  - assert (H' : mapM (transform_row p) X = Ok X')
      by (destruct X; [discriminate | exact H]).
    clear H; revert X' H'.
    induction X as [|row X IH]; simpl; intros X' H.
    + injection H as <-; constructor.
    + bind_inv H; bind_inv H; injection H as <-.
      constructor; [now apply (@transform_row_length p row) | now apply IH].
Qed.

End DataEngineeringTests.

(** ** The classes run on six rows *)

Section SixRows.
Import Example.
Local Open Scope R_scope.
Local Existing Instance nearest_neighbour.

Lemma six_rows_init :
  SimplePipeline.__init__ np_identity tt six_rows = Ok loaded.
Proof. reflexivity. Qed.

Lemma mean_0_10 : StandardScaler.mean [0; 10] = 5.
Proof. unfold StandardScaler.mean, StandardScaler.Rsum; simpl; field. Qed.

Lemma var_0_10 : StandardScaler.var [0; 10] = 5 * 5.
Proof.
  unfold StandardScaler.var; rewrite mean_0_10.
  unfold StandardScaler.mean, StandardScaler.Rsum; simpl; field.
Qed.

Lemma std_0_10 : StandardScaler.std [0; 10] = 5.
Proof.
  unfold StandardScaler.std; rewrite var_0_10; apply sqrt_square; lra.
Qed.

Lemma mean_0_2 : StandardScaler.mean [0; 2] = 1.
Proof. unfold StandardScaler.mean, StandardScaler.Rsum; simpl; field. Qed.

Lemma var_0_2 : StandardScaler.var [0; 2] = 1 * 1.
Proof.
  unfold StandardScaler.var; rewrite mean_0_2.
  unfold StandardScaler.mean, StandardScaler.Rsum; simpl; field.
Qed.

Lemma std_0_2 : StandardScaler.std [0; 2] = 1.
Proof.
  unfold StandardScaler.std; rewrite var_0_2; apply sqrt_square; lra.
Qed.

Lemma six_rows_fit :
  StandardScaler.fit true (SimplePipeline.X_train loaded) = Ok fitted.
Proof.
  unfold StandardScaler.fit; simpl.
  change (StandardScaler.column 0 _) with [0; 10].
  change (StandardScaler.column 1 _) with [0; 2].
  change (StandardScaler.column 2 _) with [0; 10].
  change (StandardScaler.column 3 _) with [0; 2].
  rewrite mean_0_10, std_0_10, mean_0_2, std_0_2.
  unfold StandardScaler._handle_zeros_in_scale.
  destruct (Req_dec_T 5 0) as [E|_]; [lra|].
  destruct (Req_dec_T 1 0) as [E|_]; [lra | reflexivity].
Qed.

Lemma six_rows_init_v2 :
  PipelineWithDataEngineering.__init__ np_identity tt six_rows
  = Ok constructed.
Proof.
  unfold PipelineWithDataEngineering.__init__.
  rewrite six_rows_init; cbn [bind].
  change (scaler_fit (SimplePipeline.X_train loaded))
    with (StandardScaler.fit true (SimplePipeline.X_train loaded)).
  rewrite six_rows_fit; reflexivity.
Qed.

Lemma six_rows_run_v1 :
  SimplePipeline.run_pipeline np_identity tt six_rows loaded = Ok v1.
Proof. reflexivity. Qed.

Lemma six_rows_run_v2 :
  PipelineWithDataEngineering.run_pipeline np_identity tt six_rows
    constructed
  = Ok v2.
Proof. reflexivity. Qed.

Lemma six_rows_setUp :
  TestIrisPredictions.setUp np_identity tt six_rows = Ok fixture.
Proof.
  unfold TestIrisPredictions.setUp.
  rewrite six_rows_init, six_rows_init_v2; cbn [bind].
  rewrite six_rows_run_v1, six_rows_run_v2; reflexivity.
Qed.

(** Decides one comparison of [nearest] on rows of numerals. *)
Ltac decide_nearest :=
  match goal with
  | |- context [Rlt_dec ?a ?b] =>
      let H := fresh "H" in
      destruct (Rlt_dec a b) as [H|H];
      unfold sqdist, StandardScaler.Rsum, scaled_row,
        StandardScaler.transform_entry in H;
      cbn [combine map fold_right fst snd StandardScaler.with_mean
           StandardScaler.mean_ StandardScaler.scale_ fitted] in H;
      try (exfalso; lra)
  end.

(** The model of the first pipeline labels the four test rows 0, 0, 1, 0,
    as they are labelled; the model of the second, on the scaled rows,
    labels the second row 1. *)
Lemma six_rows_predictions :
  estimator_predict model_v1 (SimplePipeline.X_test v1) = Ok [0; 0; 1; 0]%Z /\
  estimator_predict model_v2
    (SimplePipeline.X_test (PipelineWithDataEngineering.base v2))
  = Ok [0; 1; 1; 0]%Z.
Proof.
  split; cbn [estimator_predict nearest_neighbour]; f_equal;
    cbn [SimplePipeline.X_test v1 v2 PipelineWithDataEngineering.base
         SimplePipeline.set_model SimplePipeline.set_X loaded scaled map
         model_v1 model_v2 nearest fst snd];
    repeat decide_nearest; reflexivity.
Qed.

Lemma six_rows_accuracies :
  SimplePipeline.get_accuracy v1 = Ok (4 # 4)%Q /\
  PipelineWithDataEngineering.get_accuracy v2 = Ok (3 # 4)%Q.
Proof.
  destruct six_rows_predictions as [P1 P2].
  unfold PipelineWithDataEngineering.get_accuracy,
    SimplePipeline.get_accuracy, estimator_score.
  change (SimplePipeline.model v1) with (Some model_v1).
  change (SimplePipeline.model (PipelineWithDataEngineering.base v2))
    with (Some model_v2).
  cbv iota beta; rewrite P1, P2; split; reflexivity.
Qed.

(** C4 fails on the classes as first defined.  On the six rows, with a
    one-nearest-neighbour classifier, both pipelines are built and run by
    [setUp]; the first scores 4 of 4 test rows and the second, fitted and
    scored on scaled rows, 3 of 4, so the test of the notebook returns
    false. *)
Theorem six_rows_v2_accuracy_below_v1 :
  TestIrisPredictions.setUp np_identity tt six_rows = Ok fixture /\
  SimplePipeline.get_accuracy (TestIrisPredictions.pipeline_v1 fixture)
  = Ok (4 # 4)%Q /\
  PipelineWithDataEngineering.get_accuracy
    (TestIrisPredictions.pipeline_v2 fixture) = Ok (3 # 4)%Q /\
  TestIrisPredictions.test_accuracy_compared_to_previous_version fixture
  = Ok false.
Proof.
  destruct six_rows_accuracies as [A1 A2].
  split; [exact six_rows_setUp|].
  split; [exact A1|]; split; [exact A2|].
  unfold TestIrisPredictions.test_accuracy_compared_to_previous_version.
  cbn [TestIrisPredictions.pipeline_v1 TestIrisPredictions.pipeline_v2
       fixture].
  rewrite A1, A2; reflexivity.
Qed.
(** The test of the notebook fails on the accuracies that its recorded run
    prints, 95 and 94 correct of 98 test rows. *)
Lemma recorded_accuracies_fail_the_test {F : Type}
      {LR : Classifier F} {SS : Scaler F}
      (fx : TestIrisPredictions.t (F := F)) :
  SimplePipeline.get_accuracy (TestIrisPredictions.pipeline_v1 fx)
  = Ok (fraction 95 98) ->
  PipelineWithDataEngineering.get_accuracy
    (TestIrisPredictions.pipeline_v2 fx) = Ok (fraction 94 98) ->
  TestIrisPredictions.test_accuracy_compared_to_previous_version fx
  = Ok false.
Proof.
  intros H1 H2.
  unfold TestIrisPredictions.test_accuracy_compared_to_previous_version.
  rewrite H1, H2; reflexivity.
Qed.

(** C6 as stated fails on the six rows: the benchmark scores 1 of the 4
    test rows, the most common label of the test split covers 3. *)
Lemma six_rows_benchmark_is_not_most_common_class :
  TestIrisPredictions.setUp np_identity tt six_rows = Ok fixture /\
  TestIrisPredictions.benchmark_accuracy fixture = Ok (1 # 4)%Q /\
  most_common_count
    (SimplePipeline.y_test (TestIrisPredictions.pipeline_v1 fixture))
  = 3%nat /\
  ~ (1 # 4 ==
     fraction (most_common_count
                 (SimplePipeline.y_test
                    (TestIrisPredictions.pipeline_v1 fixture)))
              (length (SimplePipeline.y_test
                         (TestIrisPredictions.pipeline_v1 fixture))))%Q.
Proof.
  split; [exact six_rows_setUp|].
  split; [reflexivity|]; split; [reflexivity|].
  intros H; vm_compute in H; discriminate.
Qed.
(** [run_pipeline] on an instance whose scaler was fitted on other data
    transforms with the held parameters all the same, and then the stored
    training data is not the current split scaled by its own statistics. *)
Lemma six_rows_stale_scaler_is_reused :
  exists p' : PipelineWithDataEngineering.t,
    PipelineWithDataEngineering.run_pipeline np_identity tt six_rows stale
    = Ok p' /\
    PipelineWithDataEngineering.scaler p'
    = PipelineWithDataEngineering.scaler stale /\
    (sc <- scaler_fit (SimplePipeline.X_train loaded) ;;
     scaler_transform sc (SimplePipeline.X_train loaded))
    = Ok (scaled (SimplePipeline.X_train loaded)) /\
    SimplePipeline.X_train (PipelineWithDataEngineering.base p')
    <> scaled (SimplePipeline.X_train loaded).
Proof.
  eexists; split; [reflexivity|]; split; [reflexivity|]; split.
  - change (scaler_fit (SimplePipeline.X_train loaded))
      with (StandardScaler.fit true (SimplePipeline.X_train loaded)).
    rewrite six_rows_fit; reflexivity.
  - intros E; cbn in E; unfold StandardScaler.transform_entry in E.
    cbn [StandardScaler.with_mean fst snd] in E.
    injection E as E _; lra.
Qed.
End SixRows.

(** ** The theorems at work on the small environments *)

Section Witnesses.
Import Example.
Local Open Scope R_scope.
Local Existing Instance nearest_neighbour.

(** On the six rows: the scaler is fitted on the two training rows, and no
    sequence of calls changes it. *)
Lemma scaler_fitted_once_and_reused_witness :
  PipelineWithDataEngineering.__init__ np_identity tt six_rows
  = Ok constructed /\
  scaler_fit (SimplePipeline.X_train loaded) = Ok fitted /\
  forall (cs : list PipelineWithDataEngineering.call)
         (p : PipelineWithDataEngineering.t),
    PipelineWithDataEngineering.execs np_identity tt six_rows cs constructed
    = Ok p ->
    PipelineWithDataEngineering.scaler p = fitted.
Proof.
  split; [exact six_rows_init_v2|].
  destruct (@scaler_fitted_once_and_reused
              R np_identity tt six_rows nearest_neighbour
              StandardScaler_default constructed six_rows_init_v2)
    as [H1 H2].
  split; [exact H1|].
  intros cs p H; exact (proj1 (H2 cs p H)).
Defined.

(** On the six rows: [run_pipeline] keeps the fitted scaler, and the stored
    training rows are the reloaded ones scaled by their own statistics. *)
Lemma run_pipeline_reuses_construction_scaler_witness :
  PipelineWithDataEngineering.__init__ np_identity tt six_rows
  = Ok constructed /\
  PipelineWithDataEngineering.run_pipeline np_identity tt six_rows constructed
  = Ok v2 /\
  PipelineWithDataEngineering.scaler v2 = fitted /\
  (sc <- scaler_fit (SimplePipeline.X_train loaded) ;;
   scaler_transform sc (SimplePipeline.X_train loaded))
  = Ok (SimplePipeline.X_train (PipelineWithDataEngineering.base v2)).
Proof.
  split; [exact six_rows_init_v2|]; split; [exact six_rows_run_v2|].
  destruct (proj2 (@run_pipeline_reuses_construction_scaler
                     R np_identity tt six_rows nearest_neighbour
                     StandardScaler_default)
                  constructed [] constructed v2
                  six_rows_init_v2 eq_refl six_rows_run_v2)
    as [H1 [s1 [H2 [H3 H4]]]].
  split; [exact H1|].
  assert (E : SimplePipeline.X_train s1 = SimplePipeline.X_train loaded)
    by exact H3.
  rewrite <- E; exact H4.
Defined.

(** On 150 rows: 98 test rows and 52 training rows, together the data. *)
Lemma load_dataset_partition_witness :
  length (data rows_150) = 150%nat /\
  length (target rows_150) = 150%nat /\
  exists s' : SimplePipeline.t,
    SimplePipeline.load_dataset np_identity tt rows_150 loaded = Ok s' /\
    length (SimplePipeline.X_test s') = 98%nat /\
    length (SimplePipeline.X_train s') = 52%nat /\
    Permutation (SimplePipeline.X_test s' ++ SimplePipeline.X_train s')
                (data rows_150).
Proof.
  split; [reflexivity|]; split; [reflexivity|].
  destruct (@load_dataset_partition R np_identity tt rows_150
              nearest_neighbour loaded eq_refl eq_refl)
    as [s' [ind_train [ind_test H]]].
  exists s'; tauto.
Defined.


(** On the six rows: the benchmark scores the one test row labelled 1. *)
Lemma benchmark_accuracy_is_fraction_of_label_1_witness :
  TestIrisPredictions.setUp np_identity tt six_rows = Ok fixture /\
  TestIrisPredictions.benchmark_accuracy fixture = Ok (fraction 1 4) /\
  (count_label 1%Z [0; 0; 1; 0]%Z <= most_common_count [0; 0; 1; 0]%Z)%nat.
Proof.
  split; [exact six_rows_setUp|].
  destruct (@benchmark_accuracy_is_fraction_of_label_1
              R np_identity tt six_rows nearest_neighbour
              StandardScaler_default fixture six_rows_setUp)
    as [H1 [H2 _]].
  split; [exact H1 | exact H2].
Defined.

Lemma six_rows_training_features (j : nat) :
  (j < 4)%nat ->
  StandardScaler.var
    (StandardScaler.column j (training_rows np_identity six_rows)) <> 0.
Proof.
  intros Hj.
  destruct j as [|[|[|[|j]]]]; [| | | |lia].
  - change (StandardScaler.column 0 _) with [0; 10]; rewrite var_0_10; lra.
  - change (StandardScaler.column 1 _) with [0; 2]; rewrite var_0_2; lra.
  - change (StandardScaler.column 2 _) with [0; 10]; rewrite var_0_10; lra.
  - change (StandardScaler.column 3 _) with [0; 2]; rewrite var_0_2; lra.
Qed.


Lemma six_rows_apply_scaler_once :
  PipelineWithDataEngineering.apply_scaler constructed
  = Ok {| PipelineWithDataEngineering.base :=
            SimplePipeline.set_X loaded
              (scaled (SimplePipeline.X_train loaded))
              (scaled (SimplePipeline.X_test loaded));
          PipelineWithDataEngineering.scaler := fitted |}.
Proof. reflexivity. Qed.

Lemma six_rows_apply_scaler_twice :
  PipelineWithDataEngineering.apply_scaler
    {| PipelineWithDataEngineering.base :=
         SimplePipeline.set_X loaded
           (scaled (SimplePipeline.X_train loaded))
           (scaled (SimplePipeline.X_test loaded));
       PipelineWithDataEngineering.scaler := fitted |}
  = Ok {| PipelineWithDataEngineering.base :=
            SimplePipeline.set_X loaded
              (scaled (scaled (SimplePipeline.X_train loaded)))
              (scaled (scaled (SimplePipeline.X_test loaded)));
          PipelineWithDataEngineering.scaler := fitted |}.
Proof. reflexivity. Qed.

(** On the six rows, first feature, fitted mean 5 and scale 5: a second
    call changes the training rows, to mean -1 and standard deviation
    1/5. *)
Lemma apply_scaler_not_idempotent_witness :
  StandardScaler.fit true (SimplePipeline.X_train loaded) = Ok fitted /\
  scaled (scaled (SimplePipeline.X_train loaded))
  <> scaled (SimplePipeline.X_train loaded) /\
  StandardScaler.mean
    (StandardScaler.column 0 (scaled (scaled (SimplePipeline.X_train loaded))))
  = - 5 / 5 /\
  StandardScaler.std
    (StandardScaler.column 0 (scaled (scaled (SimplePipeline.X_train loaded))))
  = 1 / 5.
Proof.
  split; [exact six_rows_fit|].
  assert (Hj : (0 < length (StandardScaler.mean_ fitted))%nat)
    by (simpl; lia).
  destruct (@apply_scaler_not_idempotent
              nearest_neighbour constructed _ _
              six_rows_fit six_rows_apply_scaler_once
              six_rows_apply_scaler_twice)
    as [_ [_ [_ [_ H]]]].
  assert (H0 : (0 < 4)%nat) by lia.
  destruct (H 0%nat Hj (six_rows_training_features H0))
    as [_ [_ [M [S [_ Hne]]]]].
  split; [|split; [exact M | exact S]].
  apply Hne; intros [E _]; simpl in E; lra.
Defined.
End Witnesses.

(** * Further properties of the classes *)

(** ** What calls keep *)

Section Kept.
Context {F : Type}.
Variable np : NumpyRandom.
Variable np_random : RandomState np.
Variable load_iris : Bunch F.
Context {LogisticRegression : Classifier F}.
Context {StandardScaler : Scaler F}.

Local Abbreviation PWDE_t := (PipelineWithDataEngineering.t (F := F)).
Local Abbreviation exec := (PipelineWithDataEngineering.exec np np_random load_iris).
Local Abbreviation execs := (PipelineWithDataEngineering.execs np np_random load_iris).

Lemma load_dataset_keeps (s s' : SimplePipeline.t) :
  SimplePipeline.load_dataset np np_random load_iris s = Ok s' ->
  SimplePipeline.model s' = SimplePipeline.model s /\
  SimplePipeline.Y_test s' = SimplePipeline.Y_test s.
Proof.
  unfold SimplePipeline.load_dataset; intros H; bind_inv H.
  destruct a as [[[Xtr Xte] ytr] yte]; injection H as <-; simpl.
  split; reflexivity.
Qed.

(** One call that does not train keeps [model] unset, and no call at all
    touches [Y_test]. *)
Lemma exec_keeps (c : PipelineWithDataEngineering.call) (p p' : PWDE_t) :
  exec c p = Ok p' ->
  SimplePipeline.Y_test (PipelineWithDataEngineering.base p')
  = SimplePipeline.Y_test (PipelineWithDataEngineering.base p) /\
  (fits_model c = false ->
   SimplePipeline.model (PipelineWithDataEngineering.base p')
   = SimplePipeline.model (PipelineWithDataEngineering.base p)).
Proof.
  destruct c; cbn [PipelineWithDataEngineering.exec fits_model]; intros H.
  - unfold PipelineWithDataEngineering.load_dataset in H.
    bind_inv H; injection H as <-; simpl.
    destruct (load_dataset_keeps _ Ha) as [Hm HY]; split; auto.
  - unfold PipelineWithDataEngineering.apply_scaler in H.
    bind_inv H; bind_inv H; injection H as <-; simpl; split; auto.
  - unfold PipelineWithDataEngineering.train, SimplePipeline.train in H.
    bind_inv H; bind_inv Ha; injection Ha as <-; injection H as <-; simpl.
    split; [reflexivity | discriminate].
  - bind_inv H; injection H as <-; split; auto.
  - bind_inv H; injection H as <-; split; auto.
  - unfold PipelineWithDataEngineering.run_pipeline in H.
    bind_inv H; bind_inv H.
    unfold PipelineWithDataEngineering.load_dataset in Ha.
    bind_inv Ha; injection Ha as <-.
    unfold PipelineWithDataEngineering.apply_scaler in Ha0; simpl in Ha0.
    bind_inv Ha0; bind_inv Ha0; injection Ha0 as <-.
    unfold PipelineWithDataEngineering.train, SimplePipeline.train in H.
    simpl in H; bind_inv H; bind_inv Ha0; injection Ha0 as <-.
    injection H as <-; simpl.
    destruct (load_dataset_keeps _ Ha1) as [_ HY].
    split; [exact HY | discriminate].
Qed.


Lemma exec_y_test (s0 : SimplePipeline.t)
      (c : PipelineWithDataEngineering.call) (p p' : PWDE_t) :
  SimplePipeline.__init__ np np_random load_iris = Ok s0 ->
  exec c p = Ok p' ->
  SimplePipeline.y_test (PipelineWithDataEngineering.base p)
  = SimplePipeline.y_test s0 ->
  SimplePipeline.y_test (PipelineWithDataEngineering.base p')
  = SimplePipeline.y_test s0.
Proof.
  intros H0 H Hy.
  destruct c; cbn [PipelineWithDataEngineering.exec] in H.
  - unfold PipelineWithDataEngineering.load_dataset in H.
    bind_inv H; injection H as <-; simpl.
    apply (@load_dataset_same_split F np np_random load_iris _ s0 _ _ H0 Ha).
  - unfold PipelineWithDataEngineering.apply_scaler in H.
    bind_inv H; bind_inv H; injection H as <-; exact Hy.
  - unfold PipelineWithDataEngineering.train, SimplePipeline.train in H.
    bind_inv H; bind_inv Ha; injection Ha as <-; injection H as <-.
    exact Hy.
  - bind_inv H; injection H as <-; exact Hy.
  - bind_inv H; injection H as <-; exact Hy.
  - destruct (@run_pipeline_steps F np np_random load_iris _ _ _ _ H) as [s1 [H1 [_ [_ [_ [H5 _]]]]]].
    rewrite H5.
    apply (@load_dataset_same_split F np np_random load_iris _ s0 _ _ H0 H1).
Qed.

Lemma execs_labels (s0 : SimplePipeline.t)
      (cs : list PipelineWithDataEngineering.call) (q p : PWDE_t) :
  SimplePipeline.__init__ np np_random load_iris = Ok s0 ->
  execs cs q = Ok p ->
  SimplePipeline.Y_test (PipelineWithDataEngineering.base q) = None ->
  SimplePipeline.y_test (PipelineWithDataEngineering.base q)
  = SimplePipeline.y_test s0 ->
  SimplePipeline.Y_test (PipelineWithDataEngineering.base p) = None /\
  SimplePipeline.y_test (PipelineWithDataEngineering.base p)
  = SimplePipeline.y_test s0.
Proof.
  intros H0; revert q; induction cs as [|c cs IH]; simpl; intros q Hex HY Hy.
  - injection Hex as <-; split; assumption.
  - bind_inv Hex.
    apply (IH a); [exact Hex | |].
    + rewrite (proj1 (exec_keeps _ _ Ha)); exact HY.
    + exact (@exec_y_test s0 c q a H0 Ha Hy).
Qed.

(** X2.  [__init__] binds an attribute [Y_test] to [None], but what
    [load_dataset] assigns is [y_test]: whatever methods are called, and
    in whatever order, [Y_test] is still [None], while [y_test] holds the
    test labels of the split, the same ones throughout, and at least
    one. *)
Theorem Y_test_is_never_assigned
        (p0 p : PWDE_t) (cs : list PipelineWithDataEngineering.call) :
  PipelineWithDataEngineering.__init__ np np_random load_iris = Ok p0 ->
  execs cs p0 = Ok p ->
  SimplePipeline.Y_test (PipelineWithDataEngineering.base p) = None /\
  SimplePipeline.y_test (PipelineWithDataEngineering.base p)
  = SimplePipeline.y_test (PipelineWithDataEngineering.base p0) /\
  SimplePipeline.y_test (PipelineWithDataEngineering.base p) <> [].
Proof.
  intros Hinit Hex.
  destruct (__init___scaler _ _ _ Hinit) as [_ Hb].
  assert (HY0 : SimplePipeline.Y_test (PipelineWithDataEngineering.base p0)
                = None).
  { pose proof Hb as Hb'; unfold SimplePipeline.__init__ in Hb'.
    apply load_dataset_keeps in Hb'; apply Hb'. }
  assert (Hne : SimplePipeline.y_test (PipelineWithDataEngineering.base p0)
                <> []).
  { unfold SimplePipeline.__init__ in Hb.
    apply load_dataset_aligned in Hb; apply Hb. }
  destruct (@execs_labels _ cs p0 p Hb Hex HY0 eq_refl) as [H1 H2].
  repeat split; try assumption.
  rewrite H2; exact Hne.
Qed.
End Kept.

(** ** How the methods compose *)

(** As [bind_inv], with names for the value and its equation. *)
Ltac bind_as H x Hx := apply bind_Ok in H; destruct H as [x [Hx H]].

Section Compose.
Context {F : Type}.
Variable np : NumpyRandom.
Variable np_random : RandomState np.
Variable load_iris : Bunch F.
Context {LogisticRegression : Classifier F}.
Context {StandardScaler : Scaler F}.

Local Abbreviation PWDE_t := (PipelineWithDataEngineering.t (F := F)).

(** What [load_dataset] stores on one instance it stores on any other,
    next to that instance's own [Y_test] and [model]. *)
Lemma load_dataset_on_another (s a s' : SimplePipeline.t) :
  SimplePipeline.load_dataset np np_random load_iris s = Ok a ->
  SimplePipeline.load_dataset np np_random load_iris s'
  = Ok {| SimplePipeline.frame := SimplePipeline.frame a;
          SimplePipeline.feature_names := SimplePipeline.feature_names a;
          SimplePipeline.X_train := SimplePipeline.X_train a;
          SimplePipeline.X_test := SimplePipeline.X_test a;
          SimplePipeline.y_train := SimplePipeline.y_train a;
          SimplePipeline.y_test := SimplePipeline.y_test a;
          SimplePipeline.Y_test := SimplePipeline.Y_test s';
          SimplePipeline.model := SimplePipeline.model s' |}.
Proof.
  unfold SimplePipeline.load_dataset.
  destruct (train_test_split _ _ _ _ _ _) as [[[[Xtr Xte] ytr] yte]|e];
    simpl; [|discriminate].
  intros H; injection H as <-; reflexivity.
Qed.

(** X3.  [run_pipeline] is idempotent in both classes: it reloads the
    split, (in the subclass) scales the reloaded rows with the held
    scaler, and refits, so a second call leaves the instance exactly as
    the first call left it, although [apply_scaler] alone is not
    idempotent. *)
Theorem run_pipeline_idempotent :
  (forall s s1 : SimplePipeline.t,
     SimplePipeline.run_pipeline np np_random load_iris s = Ok s1 ->
     SimplePipeline.run_pipeline np np_random load_iris s1 = Ok s1) /\
  (forall p p1 : PWDE_t,
     PipelineWithDataEngineering.run_pipeline np np_random load_iris p
     = Ok p1 ->
     PipelineWithDataEngineering.run_pipeline np np_random load_iris p1
     = Ok p1).
Proof.
  split.
  - intros s s1 H.
    unfold SimplePipeline.run_pipeline in *.
    bind_as H b Hb.
    unfold SimplePipeline.train in H; bind_as H m Hm; injection H as <-.
    rewrite (load_dataset_on_another _ (SimplePipeline.set_model b (Some m))
               Hb); cbn [bind].
    unfold SimplePipeline.train; cbn [SimplePipeline.X_train
      SimplePipeline.y_train]; rewrite Hm; reflexivity.
  - intros p p1 H.
    unfold PipelineWithDataEngineering.run_pipeline in *.
    bind_as H q1 Hq1; bind_as H q2 Hq2.
    unfold PipelineWithDataEngineering.load_dataset in *.
    bind_as Hq1 b Hb; injection Hq1 as <-.
    unfold PipelineWithDataEngineering.apply_scaler in *.
    cbn [PipelineWithDataEngineering.base PipelineWithDataEngineering.scaler
         PipelineWithDataEngineering.with_base] in Hq2.
    bind_as Hq2 Xtr HXtr; bind_as Hq2 Xte HXte; injection Hq2 as <-.
    unfold PipelineWithDataEngineering.train, SimplePipeline.train in *.
    cbn [PipelineWithDataEngineering.base PipelineWithDataEngineering.scaler
         PipelineWithDataEngineering.with_base SimplePipeline.X_train
         SimplePipeline.y_train SimplePipeline.set_X] in H.
    bind_as H b' Hb'; bind_as Hb' m Hm; injection Hb' as <-.
    injection H as <-.
    cbn [PipelineWithDataEngineering.base PipelineWithDataEngineering.scaler
         PipelineWithDataEngineering.with_base].
    rewrite (load_dataset_on_another _
               (SimplePipeline.set_model
                  (SimplePipeline.set_X b Xtr Xte) (Some m)) Hb).
    cbn [bind PipelineWithDataEngineering.base
         PipelineWithDataEngineering.scaler
         PipelineWithDataEngineering.with_base SimplePipeline.X_train
         SimplePipeline.X_test].
    rewrite HXtr, HXte; cbn [bind PipelineWithDataEngineering.base
         PipelineWithDataEngineering.scaler
         PipelineWithDataEngineering.with_base SimplePipeline.X_train
         SimplePipeline.y_train SimplePipeline.set_X].
    rewrite Hm; reflexivity.
Qed.

(** X4.  After [run_pipeline] of the subclass the stored test rows are
    already scaled, and the overridden [predict] scales its input itself:
    called on the unscaled test rows of the split it returns what the
    model predicts on the stored ones, so scoring it against the test
    labels is what [get_accuracy] returns. *)
Theorem predict_on_unscaled_test_rows (p p' : PWDE_t) :
  PipelineWithDataEngineering.run_pipeline np np_random load_iris p = Ok p' ->
  exists (s1 : SimplePipeline.t) (m : estimator),
    SimplePipeline.load_dataset np np_random load_iris
      (PipelineWithDataEngineering.base p) = Ok s1 /\
    SimplePipeline.model (PipelineWithDataEngineering.base p') = Some m /\
    PipelineWithDataEngineering.predict p' (SimplePipeline.X_test s1)
    = estimator_predict m (SimplePipeline.X_test
                             (PipelineWithDataEngineering.base p')) /\
    PipelineWithDataEngineering.get_accuracy p'
    = (predictions <- PipelineWithDataEngineering.predict
                        p' (SimplePipeline.X_test s1) ;;
       accuracy_score (SimplePipeline.y_test s1) predictions).
Proof.
  intros H.
  destruct (@run_pipeline_steps F np np_random load_iris _ _ _ _ H)
    as [s1 [H1 [_ [H3 [_ [H5 H6]]]]]].
  assert (Hm : exists m, SimplePipeline.model
                           (PipelineWithDataEngineering.base p') = Some m).
  { unfold PipelineWithDataEngineering.run_pipeline in H.
    bind_as H q1 Hq1; bind_as H q2 Hq2.
    unfold PipelineWithDataEngineering.train, SimplePipeline.train in H.
    bind_as H b' Hb'; bind_as Hb' m Hm; injection Hb' as <-.
    injection H as <-; eexists; reflexivity. }
  destruct Hm as [m Hm].
  exists s1, m; split; [exact H1|]; split; [exact Hm|].
  assert (Hp : PipelineWithDataEngineering.predict p' (SimplePipeline.X_test s1)
               = estimator_predict m (SimplePipeline.X_test
                                        (PipelineWithDataEngineering.base p'))).
  { unfold PipelineWithDataEngineering.predict.
    rewrite H6, H3, Hm; reflexivity. }
  split; [exact Hp|].
  rewrite Hp.
  unfold PipelineWithDataEngineering.get_accuracy,
    SimplePipeline.get_accuracy, estimator_score.
  rewrite Hm, H5; reflexivity.
Qed.
End Compose.

(** ** The split: rows and labels, feature names, refusals *)




Section SplitMore.
Context {F : Type}.
Variable np : NumpyRandom.
Variable np_random : RandomState np.
Variable load_iris : Bunch F.
Context {LogisticRegression : Classifier F}.


End SplitMore.

(** ** Feature names *)





Section FeatureNames.
Context {F : Type}.
Variable np : NumpyRandom.
Variable np_random : RandomState np.
Variable load_iris : Bunch F.
Context {LogisticRegression : Classifier F}.

End FeatureNames.

(** ** The comparison of the two versions *)

Lemma Qle_bool_fraction (a b n : nat) :
  0 < n -> Qle_bool (fraction a n) (fraction b n) = (a <=? b).
Proof.
  intros Hn; unfold Qle_bool, fraction; simpl.
  rewrite (Zpos_of_nat Hn).
  destruct (Nat.leb_spec a b) as [H|H];
    destruct (Z.leb_spec (Z.of_nat a * Z.of_nat n) (Z.of_nat b * Z.of_nat n))
    as [H'|H']; try reflexivity; nia.
Qed.

Section VersionTest.
Context {F : Type}.
Variable np : NumpyRandom.
Variable np_random : RandomState np.
Variable load_iris : Bunch F.
Context {LogisticRegression : Classifier F}.
Context {StandardScaler : Scaler F}.

Lemma setUp_same_test_labels (fx : TestIrisPredictions.t) :
  TestIrisPredictions.setUp np np_random load_iris = Ok fx ->
  SimplePipeline.y_test
    (PipelineWithDataEngineering.base (TestIrisPredictions.pipeline_v2 fx))
  = SimplePipeline.y_test (TestIrisPredictions.pipeline_v1 fx) /\
  SimplePipeline.y_test (TestIrisPredictions.pipeline_v1 fx) <> [].
Proof.
  intros H.
  destruct (setUp_inv _ _ _ H) as [[v1 Hv1] [[v2 [Hi2 Hv2]] _]].
  destruct (run_pipeline_trained _ _ _ _ Hv1) as [[_ [_ [Hne _]]] _].
  split; [|exact Hne].
  destruct (@run_pipeline_steps F np np_random load_iris _ _ _ _ Hv2)
    as [s1 [H1 [_ [_ [_ [H5 _]]]]]].
  unfold SimplePipeline.run_pipeline in Hv1.
  bind_as Hv1 b Hb.
  destruct (train_split _ Hv1) as [_ [_ [_ [Hy _]]]].
  rewrite H5, Hy.
  pose proof (load_dataset_split_of np load_iris np_random
                (PipelineWithDataEngineering.base v2) v1) as Heq.
  rewrite H1, Hb in Heq; simpl in Heq.
  now injection Heq as _ _ _ ->.
Qed.

(** X8.  Both pipelines of the fixture hold the same test labels, so the
    comparison of [test_accuracy_compared_to_previous_version] compares
    two fractions over one denominator: whenever both accuracies are
    returned, the test holds exactly when the second model labels at least
    as many test rows correctly as the first. *)
Theorem version_test_compares_correct_counts
        (fx : TestIrisPredictions.t) (q1 q2 : Q) :
  TestIrisPredictions.setUp np np_random load_iris = Ok fx ->
  SimplePipeline.get_accuracy (TestIrisPredictions.pipeline_v1 fx) = Ok q1 ->
  PipelineWithDataEngineering.get_accuracy
    (TestIrisPredictions.pipeline_v2 fx) = Ok q2 ->
  let v1 := TestIrisPredictions.pipeline_v1 fx in
  let v2 := PipelineWithDataEngineering.base
              (TestIrisPredictions.pipeline_v2 fx) in
  let y := SimplePipeline.y_test v1 in
  SimplePipeline.y_test v2 = y /\
  exists (m1 m2 : estimator) (predictions1 predictions2 : list label),
    SimplePipeline.model v1 = Some m1 /\
    SimplePipeline.model v2 = Some m2 /\
    estimator_predict m1 (SimplePipeline.X_test v1) = Ok predictions1 /\
    estimator_predict m2 (SimplePipeline.X_test v2) = Ok predictions2 /\
    q1 = fraction (count_correct y predictions1) (length y) /\
    q2 = fraction (count_correct y predictions2) (length y) /\
    TestIrisPredictions.test_accuracy_compared_to_previous_version fx
    = Ok (count_correct y predictions1 <=? count_correct y predictions2).
Proof.
  intros H H1 H2 v1 v2 y.
  destruct (setUp_same_test_labels H) as [Hy Hne]; fold v2 y in Hy, Hne.
  split; [exact Hy|].
  destruct (get_accuracy_inv _ H1) as [m1 [p1 [Hm1 [Hp1 [_ Hq1]]]]].
  unfold PipelineWithDataEngineering.get_accuracy in H2.
  destruct (get_accuracy_inv _ H2) as [m2 [p2 [Hm2 [Hp2 [_ Hq2]]]]].
  fold v1 in Hm1, Hp1, Hq1; fold v2 in Hm2, Hp2, Hq2.
  fold y in Hq1; rewrite Hy in Hq2.
  exists m1, m2, p1, p2; repeat (split; [assumption|]).
  unfold TestIrisPredictions.test_accuracy_compared_to_previous_version.
  rewrite H1; unfold PipelineWithDataEngineering.get_accuracy at 1.
  rewrite H2; cbn [bind]; rewrite Hq1, Hq2, Qle_bool_fraction;
    [reflexivity|].
  assert (Hn : y <> []) by exact Hne.
  change (0 < length y).
  clearbody y; destruct y; [contradiction | simpl; lia].
Qed.
End VersionTest.

(** ** The scaler without centring *)

Section WithoutCentring.
Import StandardScaler.
Variable np : NumpyRandom.
Variable np_random : RandomState np.
Variable load_iris : Bunch R.
Context {LogisticRegression : Classifier R}.
Variable wm : bool.
Local Open Scope R_scope.

Local Abbreviation pipeline_t :=
  (@DataEngineeringExercise.pipeline_t LogisticRegression wm).

Lemma exercise_setUp_Ok (d : nat) :
  length (data load_iris) = length (target load_iris) ->
  (n_test_of (length (data load_iris)) < length (data load_iris))%nat ->
  Forall (fun row => length row = d) (data load_iris) ->
  exists pipeline : pipeline_t,
    DataEngineeringExercise.setUp np np_random load_iris wm = Ok pipeline /\
    SimplePipeline.X_train (PipelineWithDataEngineering.base pipeline)
    = training_rows np load_iris /\
    fit wm (training_rows np load_iris)
    = Ok (PipelineWithDataEngineering.scaler pipeline) /\
    aligned (PipelineWithDataEngineering.base pipeline) /\
    Forall (fun row => length row = d)
           (SimplePipeline.X_train
              (PipelineWithDataEngineering.base pipeline)) /\
    Forall (fun row => length row = d)
           (SimplePipeline.X_test
              (PipelineWithDataEngineering.base pipeline)).
Proof.
  intros Hlen Hlt Hw.
  destruct (load_dataset_Ok np load_iris np_random SimplePipeline.unloaded
              Hlen Hlt) as [s0 [Hs0 [HX0 _]]].
  pose proof (load_dataset_aligned _ _ _ _ Hs0) as [_ [A2 [_ A4]]].
  fold (training_rows np load_iris) in HX0.
  assert (Hw0 : Forall (fun row => length row = d) (training_rows np load_iris))
    by now apply gather_rows_width.
  assert (Hne0 : training_rows np load_iris <> []).
  { rewrite <- HX0; eapply nonempty_of_length; eassumption. }
  destruct (fit_Ok wm Hne0 Hw0) as [sc Hsc].
  destruct (load_dataset_Ok np load_iris np_random s0 Hlen Hlt)
    as [s1 [Hs1 [HX1 [HX1' _]]]].
  pose proof (load_dataset_aligned _ _ _ _ Hs1) as Hal.
  exists (@PipelineWithDataEngineering.Build_t
            R LogisticRegression (StandardScaler.scaler wm) s1 sc).
  cbn [PipelineWithDataEngineering.base PipelineWithDataEngineering.scaler].
  split; [|repeat split; try assumption; try apply Hal].
  - unfold DataEngineeringExercise.setUp,
      PipelineWithDataEngineering.__init__, SimplePipeline.__init__.
    rewrite Hs0; cbn [bind]; rewrite HX0.
    change (@scaler_fit R (StandardScaler.scaler wm)
                        (training_rows np load_iris))
      with (fit wm (training_rows np load_iris)).
    rewrite Hsc; cbn [bind].
    unfold PipelineWithDataEngineering.load_dataset;
      cbn [PipelineWithDataEngineering.base]; rewrite Hs1; reflexivity.
  - rewrite HX1; now apply gather_rows_width.
  - rewrite HX1'; now apply gather_rows_width.
Qed.

Lemma exercise_apply_scaler_Ok (p : pipeline_t) :
  aligned (PipelineWithDataEngineering.base p) ->
  Forall (fun row => length row
                     = length (mean_ (PipelineWithDataEngineering.scaler p)))
         (SimplePipeline.X_train (PipelineWithDataEngineering.base p)) ->
  Forall (fun row => length row
                     = length (mean_ (PipelineWithDataEngineering.scaler p)))
         (SimplePipeline.X_test (PipelineWithDataEngineering.base p)) ->
  exists p' : pipeline_t,
    PipelineWithDataEngineering.apply_scaler p = Ok p' /\
    transform (PipelineWithDataEngineering.scaler p)
              (SimplePipeline.X_train (PipelineWithDataEngineering.base p))
    = Ok (SimplePipeline.X_train (PipelineWithDataEngineering.base p')).
Proof.
  intros [A1 [A2 [A3 A4]]] Htr Hte.
  destruct (transform_Ok (PipelineWithDataEngineering.scaler p)
              (nonempty_of_length A2 A4) Htr) as [Xtr HXtr].
  destruct (transform_Ok (PipelineWithDataEngineering.scaler p)
              (nonempty_of_length A1 A3) Hte) as [Xte HXte].
  unfold PipelineWithDataEngineering.apply_scaler.
  change (@scaler_transform R (StandardScaler.scaler wm)) with transform.
  rewrite HXtr, HXte; cbn [bind]; eexists; split; reflexivity.
Qed.
End WithoutCentring.

Section MeanOfArray.
Import StandardScaler.
Local Open Scope R_scope.

Lemma Rsum_map_ge {A : Type} (f : A -> R) (c : R) (l : list A) :
  (forall a, In a l -> c <= f a) -> INR (length l) * c <= Rsum (map f l).
Proof.
  induction l as [|a l IH]; intros H.
  - simpl; lra.
  - cbn [map length]; rewrite S_INR; simpl; fold (Rsum (map f l)).
    assert (c <= f a) by (apply H; now left).
    assert (INR (length l) * c <= Rsum (map f l))
      by (apply IH; intros b Hb; apply H; now right).
    lra.
Qed.

(** The mean over a rectangular array is at least any bound that holds
    for the mean of each feature. *)
Lemma mean_concat_ge (d : nat) (X : matrix R) (c : R) :
  X <> [] -> (0 < d)%nat ->
  Forall (fun row => length row = d) X ->
  (forall j : nat, (j < d)%nat -> c <= mean (column j X)) ->
  c <= mean (concat X).
Proof.
  intros HX Hd Hrect Hcol.
  assert (Hn : 0 < INR (length X)) by now apply INR_length_pos.
  assert (Hd' : 0 < INR d) by now apply lt_0_INR.
  unfold mean.
  rewrite (length_concat_rectangular Hrect), mult_INR.
  rewrite (Rsum_rows_columns Hrect).
  assert (Hsum : INR (length (seq 0 d)) * (INR (length X) * c)
                 <= Rsum (map (fun j => Rsum (column j X)) (seq 0 d))).
  { apply Rsum_map_ge; intros j Hj; apply in_seq in Hj.
    assert (Hc : column j X <> [])
      by (intros E; apply column_nil_iff in E; contradiction).
    rewrite (Rsum_of_mean Hc).
    replace (length (column j X)) with (length X)
      by (unfold column; now rewrite length_map).
    apply Rmult_le_compat_l; [lra | apply Hcol; lia]. }
  rewrite length_seq in Hsum.
  apply (Rmult_le_reg_r (INR (length X) * INR d)); [nra|].
  unfold Rdiv; rewrite Rmult_assoc, Rinv_l by nra.
  lra.
Qed.
End MeanOfArray.

Section ExerciseTest.
Import StandardScaler.
Variable np : NumpyRandom.
Variable np_random : RandomState np.
Variable load_iris : Bunch R.
Context {LogisticRegression : Classifier R}.
Local Open Scope R_scope.

(** X9.  With [StandardScaler(with_mean=False)], as the exercise of the
    data-engineering notebook redefines the class, [apply_scaler] still
    brings every training feature that is not constant to standard
    deviation 1, but leaves it with its mean divided by its standard
    deviation.  On data whose training features each have a mean of at
    least their standard deviation, the mean of the scaled training data
    is then at least 1, and the test that expects it near zero fails. *)
Theorem scaler_without_centring_fails_mean_test :
  length (data load_iris) = length (target load_iris) ->
  (n_test_of (length (data load_iris)) < length (data load_iris))%nat ->
  Forall (fun row => length row = 4%nat) (data load_iris) ->
  (forall j : nat, (j < 4)%nat ->
     var (column j (training_rows np load_iris)) <> 0) ->
  (forall j : nat, (j < 4)%nat ->
     std (column j (training_rows np load_iris))
     <= mean (column j (training_rows np load_iris))) ->
  exists pipeline pipeline'
         : @DataEngineeringExercise.pipeline_t LogisticRegression false,
    DataEngineeringExercise.setUp np np_random load_iris false = Ok pipeline /\
    PipelineWithDataEngineering.apply_scaler pipeline = Ok pipeline' /\
    (forall j : nat, (j < 4)%nat ->
       let feature := column j (training_rows np load_iris) in
       let feature' :=
         column j (SimplePipeline.X_train
                     (PipelineWithDataEngineering.base pipeline')) in
       std feature' = 1 /\ mean feature' = mean feature / std feature) /\
    1 <= TestIrisDataEngineering.mean_all
           (SimplePipeline.X_train
              (PipelineWithDataEngineering.base pipeline')) /\
    exists P : Prop,
      DataEngineeringExercise.test_scaler_preprocessing_brings_x_train_mean_near_zero
        pipeline = Ok P /\ ~ P.
Proof.
  intros Hlen Hlt Hw Hv Hms.
  destruct (@exercise_setUp_Ok np np_random load_iris LogisticRegression
              false 4%nat Hlen Hlt Hw)
    as [pipeline [Hset [HX [Hfit [Hal [Hwtr Hwte]]]]]].
  destruct (fit_inv _ _ Hfit) as [_ [_ [d [Hd [Hm [Hs _]]]]]].
  assert (Hmsl : length (mean_ (PipelineWithDataEngineering.scaler pipeline))
                 = length (scale_ (PipelineWithDataEngineering.scaler pipeline)))
    by congruence.
  assert (Hd4 : length (mean_ (PipelineWithDataEngineering.scaler pipeline))
                = 4%nat).
  { destruct (training_rows np load_iris) as [|row X] eqn:E; [discriminate|].
    assert (Hrow : length row = 4%nat).
    { assert (Hin : In row (training_rows np load_iris))
        by (rewrite E; now left).
      apply gather_In in Hin; rewrite Forall_forall in Hw; now apply Hw. }
    apply Forall_inv in Hd; congruence. }
  rewrite <- Hd4 in Hwtr, Hwte.
  destruct (exercise_apply_scaler_Ok _ Hal Hwtr Hwte)
    as [pipeline' [Happ Htr]].
  destruct (@transform_width _ _ _ Hmsl Htr) as [Hne Hrect].
  rewrite Hd4 in Hrect.
  assert (Hstat : forall j, (j < 4)%nat ->
            mean (column j (SimplePipeline.X_train
                              (PipelineWithDataEngineering.base pipeline')))
            = mean (column j (training_rows np load_iris))
              / std (column j (training_rows np load_iris)) /\
            std (column j (SimplePipeline.X_train
                             (PipelineWithDataEngineering.base pipeline')))
            = 1).
  { intros j Hj; rewrite HX in Htr.
    exact (@fit_transform_without_mean _ _ _ j 4%nat Hfit Htr Hd4 Hj
             (Hv j Hj)). }
  assert (Hge : 1 <= TestIrisDataEngineering.mean_all
                       (SimplePipeline.X_train
                          (PipelineWithDataEngineering.base pipeline'))).
  { unfold TestIrisDataEngineering.mean_all.
    apply (@mean_concat_ge 4%nat); [exact Hne | lia | exact Hrect |].
    intros j Hj; rewrite (proj1 (Hstat j Hj)).
    pose proof (std_pos (Hv j Hj)) as Hpos.
    apply (Rmult_le_reg_r (std (column j (training_rows np load_iris))));
      [exact Hpos|].
    unfold Rdiv; rewrite Rmult_assoc, Rinv_l, Rmult_1_l, Rmult_1_r by lra.
    apply Hms; exact Hj. }
  exists pipeline, pipeline'.
  split; [exact Hset|]; split; [exact Happ|]; split; [|split; [exact Hge|]].
  - intros j Hj feature feature'; destruct (Hstat j Hj) as [M S].
    split; assumption.
  - eexists; split.
    + unfold DataEngineeringExercise.test_scaler_preprocessing_brings_x_train_mean_near_zero.
      rewrite Happ; reflexivity.
    + cbv zeta; intros [_ [E|E]].
      * rewrite E in Hge; lra.
      * rewrite Rminus_0_r in E.
        rewrite Rabs_right in E by lra; lra.
Qed.
End ExerciseTest.

(** ** The further properties at work on the small environments *)

Section MoreWitnesses.
Import Example ExampleMore.
Local Open Scope R_scope.
Local Existing Instance nearest_neighbour.



Lemma six_rows_execs_run :
  PipelineWithDataEngineering.execs np_identity tt six_rows
    [PipelineWithDataEngineering.call_run_pipeline] constructed
  = Ok v2.
Proof. reflexivity. Qed.

(** On the six rows: after [run_pipeline], [Y_test] is [None] and [y_test]
    holds the four test labels. *)
Lemma Y_test_is_never_assigned_witness :
  PipelineWithDataEngineering.__init__ np_identity tt six_rows
  = Ok constructed /\
  PipelineWithDataEngineering.execs np_identity tt six_rows
    [PipelineWithDataEngineering.call_run_pipeline] constructed
  = Ok v2 /\
  SimplePipeline.Y_test (PipelineWithDataEngineering.base v2) = None /\
  SimplePipeline.y_test (PipelineWithDataEngineering.base v2)
  = [0; 0; 1; 0]%Z.
Proof.
  split; [exact six_rows_init_v2|]; split; [exact six_rows_execs_run|].
  destruct (@Y_test_is_never_assigned
              R np_identity tt six_rows nearest_neighbour
              StandardScaler_default constructed v2
              [PipelineWithDataEngineering.call_run_pipeline]
              six_rows_init_v2 six_rows_execs_run)
    as [H1 [H2 _]].
  split; [exact H1 | exact H2].
Defined.

(** On the six rows: a second [run_pipeline] leaves each pipeline as the
    first left it. *)
Lemma run_pipeline_idempotent_witness :
  SimplePipeline.run_pipeline np_identity tt six_rows loaded = Ok v1 /\
  SimplePipeline.run_pipeline np_identity tt six_rows v1 = Ok v1 /\
  PipelineWithDataEngineering.run_pipeline np_identity tt six_rows constructed
  = Ok v2 /\
  PipelineWithDataEngineering.run_pipeline np_identity tt six_rows v2 = Ok v2.
Proof.
  destruct (@run_pipeline_idempotent
              R np_identity tt six_rows nearest_neighbour
              StandardScaler_default) as [H1 H2].
  split; [exact six_rows_run_v1|].
  split; [exact (H1 loaded v1 six_rows_run_v1)|].
  split; [exact six_rows_run_v2|].
  exact (H2 constructed v2 six_rows_run_v2).
Defined.

(** On the six rows: [predict] of the second pipeline on the unscaled test
    rows is its model on the stored, scaled ones. *)
Lemma predict_on_unscaled_test_rows_witness :
  PipelineWithDataEngineering.run_pipeline np_identity tt six_rows constructed
  = Ok v2 /\
  PipelineWithDataEngineering.predict v2 (SimplePipeline.X_test loaded)
  = estimator_predict model_v2
      (SimplePipeline.X_test (PipelineWithDataEngineering.base v2)).
Proof.
  split; [exact six_rows_run_v2|].
  destruct (@predict_on_unscaled_test_rows
              R np_identity tt six_rows nearest_neighbour
              StandardScaler_default constructed v2 six_rows_run_v2)
    as [s1 [m [H1 [H2 [H3 _]]]]].
  assert (E1 : s1 = loaded) by (injection H1 as <-; reflexivity).
  assert (E2 : m = model_v2) by (injection H2 as <-; reflexivity).
  rewrite E1, E2 in H3; exact H3.
Defined.





(** On the six rows: 4 against 3 correct of the same four labels. *)
Lemma version_test_compares_correct_counts_witness :
  TestIrisPredictions.setUp np_identity tt six_rows = Ok fixture /\
  SimplePipeline.get_accuracy (TestIrisPredictions.pipeline_v1 fixture)
  = Ok (4 # 4)%Q /\
  PipelineWithDataEngineering.get_accuracy
    (TestIrisPredictions.pipeline_v2 fixture) = Ok (3 # 4)%Q /\
  SimplePipeline.y_test
    (PipelineWithDataEngineering.base (TestIrisPredictions.pipeline_v2 fixture))
  = SimplePipeline.y_test (TestIrisPredictions.pipeline_v1 fixture) /\
  exists c1 c2 : nat,
    TestIrisPredictions.test_accuracy_compared_to_previous_version fixture
    = Ok (c1 <=? c2)%nat.
Proof.
  destruct six_rows_accuracies as [A1 A2].
  split; [exact six_rows_setUp|]; split; [exact A1|]; split; [exact A2|].
  destruct (@version_test_compares_correct_counts
              R np_identity tt six_rows nearest_neighbour
              StandardScaler_default fixture _ _ six_rows_setUp A1 A2)
    as [Hy [m1 [m2 [p1 [p2 [_ [_ [_ [_ [_ [_ Ht]]]]]]]]]]].
  split; [exact Hy|].
  eexists; eexists; exact Ht.
Defined.

Lemma six_rows_std_le_mean (j : nat) :
  (j < 4)%nat ->
  StandardScaler.std
    (StandardScaler.column j (training_rows np_identity six_rows))
  <= StandardScaler.mean
       (StandardScaler.column j (training_rows np_identity six_rows)).
Proof.
  intros Hj.
  destruct j as [|[|[|[|j]]]]; [| | | |lia].
  - change (StandardScaler.column 0 _) with [0; 10];
      rewrite std_0_10, mean_0_10; lra.
  - change (StandardScaler.column 1 _) with [0; 2];
      rewrite std_0_2, mean_0_2; lra.
  - change (StandardScaler.column 2 _) with [0; 10];
      rewrite std_0_10, mean_0_10; lra.
  - change (StandardScaler.column 3 _) with [0; 2];
      rewrite std_0_2, mean_0_2; lra.
Qed.

(** On the six rows, whose training features have means 5 and 1 and
    standard deviations 5 and 1: without centring the mean test fails. *)
Lemma scaler_without_centring_fails_mean_test_witness :
  length (data six_rows) = length (target six_rows) /\
  (n_test_of (length (data six_rows)) < length (data six_rows))%nat /\
  Forall (fun row => length row = 4%nat) (data six_rows) /\
  (forall j : nat, (j < 4)%nat ->
     StandardScaler.var
       (StandardScaler.column j (training_rows np_identity six_rows)) <> 0) /\
  (forall j : nat, (j < 4)%nat ->
     StandardScaler.std
       (StandardScaler.column j (training_rows np_identity six_rows))
     <= StandardScaler.mean
          (StandardScaler.column j (training_rows np_identity six_rows))) /\
  exists pipeline
         : @DataEngineeringExercise.pipeline_t nearest_neighbour false,
    DataEngineeringExercise.setUp np_identity tt six_rows false
    = Ok pipeline /\
    exists P : Prop,
      DataEngineeringExercise.test_scaler_preprocessing_brings_x_train_mean_near_zero
        pipeline = Ok P /\ ~ P.
Proof.
  assert (H1 : length (data six_rows) = length (target six_rows))
    by reflexivity.
  assert (H2 : (n_test_of (length (data six_rows))
                < length (data six_rows))%nat)
    by (vm_compute; lia).
  assert (H3 : Forall (fun row => length row = 4%nat) (data six_rows))
    by (repeat constructor).
  repeat (split; [assumption|]).
  split; [exact six_rows_training_features|].
  split; [exact six_rows_std_le_mean|].
  destruct (@scaler_without_centring_fails_mean_test
              np_identity tt six_rows nearest_neighbour H1 H2 H3
              six_rows_training_features six_rows_std_le_mean)
    as [pipeline [pipeline' [Hs [_ [_ [_ HP]]]]]].
  exists pipeline; split; [exact Hs | exact HP].
Defined.


(** On the six rows: one test row is labelled 1, the model labels all four
    correctly, and the benchmark test holds. *)
Lemma benchmark_test_iff_witness :
  TestIrisPredictions.setUp np_identity tt six_rows = Ok fixture /\
  SimplePipeline.predict (TestIrisPredictions.pipeline_v1 fixture)
    (SimplePipeline.X_test (TestIrisPredictions.pipeline_v1 fixture))
  = Ok [0; 0; 1; 0]%Z /\
  TestIrisPredictions.test_accuracy_higher_than_benchmark fixture = Ok true.
Proof.
  split; [exact six_rows_setUp|].
  split; [exact (proj1 six_rows_predictions)|].
  exact (@benchmark_test_iff
           R np_identity tt six_rows nearest_neighbour
           StandardScaler_default fixture [0; 0; 1; 0]%Z
           six_rows_setUp (proj1 six_rows_predictions)).
Defined.

(** On the six rows: with the constant [predict] the benchmark test
    fails. *)
Lemma constant_predict_fails_benchmark_test_witness :
  TestIrisPredictions.setUp np_identity tt six_rows = Ok fixture /\
  TestIrisPredictions.test_accuracy_higher_than_benchmark_constant fixture
  = Ok false.
Proof.
  split; [exact six_rows_setUp|].
  exact (@constant_predict_fails_benchmark_test
           R np_identity tt six_rows nearest_neighbour
           StandardScaler_default fixture six_rows_setUp).
Defined.

Lemma six_rows_setUp_unscaled :
  TestIrisPredictions.setUp_unscaled np_identity tt six_rows
  = Ok fixture_unscaled.
Proof.
  unfold TestIrisPredictions.setUp_unscaled.
  rewrite six_rows_init, six_rows_init_v2; cbn [bind].
  rewrite six_rows_run_v1; reflexivity.
Qed.

(** On the six rows: without the call of [apply_scaler] both pipelines
    score 4 of 4 and the comparison holds. *)
Lemma unscaled_v2_accuracy_equals_v1_witness :
  TestIrisPredictions.setUp_unscaled np_identity tt six_rows
  = Ok fixture_unscaled /\
  PipelineWithDataEngineering.get_accuracy
    (TestIrisPredictions.pipeline_v2 fixture_unscaled) = Ok (4 # 4)%Q /\
  TestIrisPredictions.test_accuracy_compared_to_previous_version
    fixture_unscaled = Ok true.
Proof.
  split; [exact six_rows_setUp_unscaled|].
  destruct (@unscaled_v2_accuracy_equals_v1
              R np_identity tt six_rows nearest_neighbour
              StandardScaler_default fixture_unscaled
              six_rows_setUp_unscaled)
    as [H1 H2].
  split.
  - rewrite H1; exact (proj1 six_rows_accuracies).
  - exact (H2 (4 # 4)%Q (proj1 six_rows_accuracies)).
Defined.
End MoreWitnesses.
